(** * ed25519-bench: the benchmark worker, embedded and verified

    The worker (the TypeScript file that defines [main]) generates random
    data, hashes it, signs the hash with Ed25519 and verifies the signature in
    an endless loop, keeping four rolling averages of the stage timings and
    posting a status line every 100 samples.

    The embedding follows the source function by function:
    - JavaScript strings are [string]s, with the string built-ins the worker
      calls ([padStart], [Array.prototype.join], [String.prototype.replace]
      with the one regular expression of the source);
    - JavaScript numbers are IEEE 754 binary64 values ([float]), with the
      correctly rounded operations of the engine;
    - the asynchronous code is a state-and-exception monad over the [World]
      the worker observes and changes (clock readings, entropy, the messages
      posted to the page, the error console);
    - what the worker gets from outside is a [Host]: the clock, the libraries
      and the global object, which has a [postMessage] in a worker scope and
      has none in the main scope of Node;
    - the [while (looping)] loop is a fixpoint over a number of iterations. *)

From Stdlib Require Import ZArith QArith Qabs Lia Bool List.
From Stdlib Require Import Ascii String DecimalString.
From Stdlib Require Import Floats.
Import ListNotations.

Local Open Scope string_scope.
Local Open Scope Z_scope.

(** ** Strings

    The strings the worker builds are made of ASCII characters; a character
    is a byte here. *)

Module JSString.

(** [Array(n).fill(c).join('')], the filler of [padStart]. *)
Fixpoint repeat_char (c : ascii) (n : nat) : string :=
  match n with
  | O => EmptyString
  | S n' => String c (repeat_char c n')
  end.

(** [s.padStart(targetLength, c)] for a one-character filler: a string that
    is already long enough is returned as it is. *)
Definition padStart (targetLength : nat) (c : ascii) (s : string) : string :=
  repeat_char c (targetLength - String.length s) ++ s.

(** [parts.join(sep)]. *)
Fixpoint join (sep : string) (parts : list string) : string :=
  match parts with
  | [] => ""
  | [p] => p
  | p :: rest => p ++ sep ++ join sep rest
  end.

(** Decimal digits of a non-negative integer, ["0"] for zero: what
    [toString()] gives on an integral number below [1e21]. *)
Definition digits_of_Z (z : Z) : string :=
  NilZero.string_of_uint (N.to_uint (Z.to_N z)).

(** [x.replaceAll(',', '')], used only to state properties. *)
Fixpoint delete_commas (s : string) : string :=
  match s with
  | EmptyString => EmptyString
  | String c s' =>
      if Ascii.eqb c "," then delete_commas s' else String c (delete_commas s')
  end.

(** [s.includes(',')]. *)
Fixpoint has_comma (s : string) : bool :=
  match s with
  | EmptyString => false
  | String c s' => Ascii.eqb c "," || has_comma s'
  end.

End JSString.

(** ** The regular expression of [numberWithCommas]

    [/\B(?=(\d{3})+(?!\d))/g]: every piece of the pattern is an assertion, so
    a match consumes nothing; it holds or fails at a position of the subject,
    described by the character before the position (if any) and the rest of
    the subject from the position on. *)

Module Regex.

Definition in_range (lo hi c : ascii) : bool :=
  (nat_of_ascii lo <=? nat_of_ascii c)%nat && (nat_of_ascii c <=? nat_of_ascii hi)%nat.

(** [\d] *)
Definition digit (c : ascii) : bool := in_range "0" "9" c.

(** [\w]: [[A-Za-z0-9_]] *)
Definition word_char (c : ascii) : bool :=
  in_range "a" "z" c || in_range "A" "Z" c || digit c || Ascii.eqb c "_".

(** Is there a word character on this side of the position?  The ends of
    the subject count as non-word. *)
Definition is_word (c : option ascii) : bool :=
  match c with
  | Some c => word_char c
  | None => false
  end.

Definition next_char (s : string) : option ascii :=
  match s with
  | EmptyString => None
  | String c _ => Some c
  end.

(** [\B]: not at a word boundary, both sides are of the same kind. *)
Definition non_word_boundary (prev : option ascii) (rest : string) : bool :=
  Bool.eqb (is_word prev) (is_word (next_char rest)).

(** [(?!\d)] *)
Definition no_digit_ahead (rest : string) : bool :=
  match rest with
  | EmptyString => true
  | String c _ => negb (digit c)
  end.

(** The tail of [(\d{3})+(?!\d)] once one group has matched: the greedy
    [+] first tries one more group of three digits and backtracks to
    [(?!\d)] when that fails. *)
Fixpoint more_groups (rest : string) : bool :=
  match rest with
  | String a (String b (String c rest')) =>
      (digit a && digit b && digit c && more_groups rest')
      || no_digit_ahead rest
  | _ => no_digit_ahead rest
  end.

(** [(\d{3})+(?!\d)]: at least one group. *)
Definition groups_of_three (rest : string) : bool :=
  match rest with
  | String a (String b (String c rest')) =>
      digit a && digit b && digit c && more_groups rest'
  | _ => false
  end.

(** The whole pattern at one position. *)
Definition matches_at (prev : option ascii) (rest : string) : bool :=
  non_word_boundary prev rest && groups_of_three rest.

(** [subject.replace(/.../g, replacement)] for this pattern: the engine
    tries every position from the left; an empty match puts the replacement
    there and the search moves on by one character, which is copied. *)
Fixpoint replace_from (replacement : string) (prev : option ascii) (rest : string)
  : string :=
  (if matches_at prev rest then replacement else "")
  ++ match rest with
     | EmptyString => EmptyString
     | String c rest' => String c (replace_from replacement (Some c) rest')
     end.

Definition replace_all (replacement : string) (subject : string) : string :=
  replace_from replacement None subject.

End Regex.

(** [numberWithCommas], the thousands-separator helper of the source. *)
Definition numberWithCommas (x : string) : string :=
  Regex.replace_all "," x.


(** ** Numbers

    A JavaScript number is an IEEE 754 binary64 value; [-], [+] and [/] are
    the correctly rounded operations (round to nearest, ties to even). *)
Definition number : Type := float.

Module JSNumberOps.

(** [Number(z)] for a BigInt [z], and the value of an integer literal: the
    nearest binary64 value. *)
Definition of_Z (z : Z) : number :=
  SF2Prim (binary_normalize prec emax z 0 false).

(** The mathematical value of a number, as the language specification
    reads it before formatting. *)
Inductive Value : Type :=
| NaN
| Infinite (negative : bool)
| Finite (q : Q).

Definition value (x : number) : Value :=
  match Prim2SF x with
  | S754_nan => NaN
  | S754_infinity s => Infinite s
  | S754_zero _ => Finite 0
  | S754_finite s m e =>
      let n := if s then Z.neg m else Z.pos m in
      match e with
      | Z.neg p => Finite (n # (2 ^ p))
      | _ => Finite ((n * 2 ^ e) # 1)
      end
  end.

(** *** [Number::toString] for a finite number of magnitude at least
    [10^21]: the shortest decimal [s * 10^j] that still rounds to the
    number, the closest one if there are several, printed in exponent
    notation.  Such a number is an integer [m * 2^e] with [e > 0]. *)

(** The integers that round to [m * 2^e]: within half a gap on either
    side, the two ends included when the significand is even.  The gap
    below a power of two is half the gap above it. *)
Definition rounds_to (m : positive) (e : Z) (c : Z) : bool :=
  let x := Z.pos m * 2 ^ e in
  let above := 2 ^ (e - 1) in
  let below := if (Z.pos m =? 2 ^ 52) then 2 ^ (e - 2) else 2 ^ (e - 1) in
  if Z.even (Z.pos m)
  then (x - below <=? c) && (c <=? x + above)
  else (x - below <? c) && (c <? x + above).

(** The multiple of [10^j] that rounds to [m * 2^e] and is closest to it,
    trying the largest [j] first. *)
Fixpoint shortest_decimal (m : positive) (e : Z) (j : nat) : Z :=
  let x := Z.pos m * 2 ^ e in
  let p := 10 ^ Z.of_nat j in
  let lo := (x / p) * p in
  let hi := lo + p in
  let lo_ok := (0 <? lo) && rounds_to m e lo in
  let hi_ok := rounds_to m e hi in
  let lo_closer :=
    (x - lo <? hi - x) || ((x - lo =? hi - x) && Z.even (lo / p)) in
  if lo_ok && (negb hi_ok || lo_closer) then lo
  else if hi_ok then hi
  else match j with
       | O => x
       | S j' => shortest_decimal m e j'
       end.

Fixpoint strip_trailing_zeros_rev (rev_digits : list ascii) : list ascii :=
  match rev_digits with
  | c :: rest => if Ascii.eqb c "0" then strip_trailing_zeros_rev rest else rev_digits
  | [] => []
  end.

Definition strip_trailing_zeros (digits : string) : string :=
  string_of_list_ascii
    (rev (strip_trailing_zeros_rev (rev (list_ascii_of_string digits)))).

Definition toString_large (m : positive) (e : Z) : string :=
  let x := Z.pos m * 2 ^ e in
  let digits := JSString.digits_of_Z x in
  let c := shortest_decimal m e (String.length digits) in
  let all := JSString.digits_of_Z c in
  let n := String.length all in
  let s := strip_trailing_zeros all in
  let exponent := "e+" ++ JSString.digits_of_Z (Z.of_nat (n - 1)) in
  match s with
  | String d EmptyString => String d exponent
  | String d more => String d ("." ++ more ++ exponent)
  | EmptyString => exponent
  end.

(** [n / 10^f - x] as close to zero as possible, the larger [n] on a tie,
    for [x = p / d >= 0]. *)
Definition round_half_up (p : Z) (d : positive) : Z :=
  (2 * p + Z.pos d) / (2 * Z.pos d).

(** The digits of [n] with a decimal point before the last [f] of them,
    left-padded with zeros to [f + 1] digits. *)
Definition fixed_digits (f : nat) (n : Z) : string :=
  let m := JSString.digits_of_Z n in
  match f with
  | O => m
  | _ =>
      let m := JSString.padStart (f + 1) "0" m in
      let k := String.length m in
      String.substring 0 (k - f) m ++ "." ++ String.substring (k - f) f m
  end.

(** [x.toFixed(fractionDigits)] (Number.prototype.toFixed). *)
Definition toFixed (x : number) (fractionDigits : nat) : string :=
  match Prim2SF x with
  | S754_nan => "NaN"
  | S754_infinity false => "Infinity"
  | S754_infinity true => "-Infinity"
  | S754_zero _ => fixed_digits fractionDigits 0
  | S754_finite neg m e =>
      let s := if neg then "-" else "" in
      let scale := 10 ^ Z.of_nat fractionDigits in
      s ++ match e with
           | Z.neg p =>
               if (10 ^ 21 * Z.pos (2 ^ p) <=? Z.pos m)
               then toString_large m e
               else fixed_digits fractionDigits
                      (round_half_up (Z.pos m * scale) (2 ^ p))
           | _ =>
               if (10 ^ 21 <=? Z.pos m * 2 ^ e)
               then toString_large m e
               else fixed_digits fractionDigits (Z.pos m * 2 ^ e * scale)
           end
  end.

(** The numbers [toFixed] prints in fixed notation: the finite ones of
    magnitude below [10^21]. *)
Definition in_fixed_range (x : number) : bool :=
  match Prim2SF x with
  | S754_zero _ => true
  | S754_finite _ m e =>
      match e with
      | Z.neg p => negb (10 ^ 21 * Z.pos (2 ^ p) <=? Z.pos m)
      | _ => negb (10 ^ 21 <=? Z.pos m * 2 ^ e)
      end
  | S754_nan => false
  | S754_infinity _ => false
  end.

End JSNumberOps.

(** [approxRollingAverage] of the source: the two compound assignments, in
    the order the source makes them. *)
Definition approxRollingAverage (avg newSample n : number) : number :=
  let avg := PrimFloat.sub avg (PrimFloat.div avg n) in
  let avg := PrimFloat.add avg (PrimFloat.div newSample n) in
  avg.

(** One stage average fed a sequence of samples, oldest first, with window
    [n]: the successive assignments [avg = approxRollingAverage(avg, s, n)]. *)
Definition feed_samples (n : number) (samples : list number) (avg : number)
  : number :=
  fold_left (fun avg s => approxRollingAverage avg s n) samples avg.

(** The update rule as the specification writes it,
    [avg := avg - avg/100 + s/100], in the arithmetic of the engine. *)
Definition ema_rule (avg s : number) : number :=
  (avg - avg / 100 + s / 100)%float.

(** The rule iterated over a sequence of samples. *)
Fixpoint iterate_ema_rule (samples : list number) (avg : number) : number :=
  match samples with
  | [] => avg
  | s :: rest => iterate_ema_rule rest (ema_rule avg s)
  end.

(** The closed form of the specification for a constant sample [5.0] after
    100 updates from [0], as an exact rational: [5 * (1 - 0.99^100)]. *)
Definition closed_form_5_100 : Q := 5 * (1 - (99 # 100) ^ 100).

(** "[y] is [x] with commas put in": nothing of [x] is changed, dropped or
    moved. *)
Inductive commas_inserted : string -> string -> Prop :=
| ci_end : commas_inserted "" ""
| ci_keep (c : ascii) (x y : string) :
    commas_inserted x y -> commas_inserted (String c x) (String c y)
| ci_comma (x y : string) :
    commas_inserted x y -> commas_inserted x (String "," y).

(** ** The world of the worker

    Everything the worker gets from outside: the clock, the secure random
    source, SHA-512, the Ed25519 library and the global object.  A call of an
    asynchronous library function either fulfils with a value or rejects. *)

Definition bytes : Type := list Byte.byte.

Definition Error : Type := string.

Inductive Completion (A : Type) : Type :=
| Normal (a : A)
| Throw (e : Error).

Arguments Normal {A} a.
Arguments Throw {A} e.

Record Host : Type := {
  (** [process.hrtime], when the host defines it: the successive values of
      [process.hrtime.bigint()], in nanoseconds *)
  hrtime : option (nat -> Z);
  (** the successive values of [performance.now()] *)
  performance_now : nat -> number;
  (** [randomBytes(size)] of the [crypto] module, by draw *)
  crypto_randomBytes : nat -> nat -> Completion bytes;
  (** [createHash('SHA512').update(data).digest()] *)
  crypto_sha512 : bytes -> Completion bytes;
  (** the [noble-ed25519] library; that it implements Ed25519, for instance
      that [verify] accepts what [sign] produced, is the library's own
      business and nothing here relies on it *)
  ed25519_randomPrivateKey : Completion bytes;
  ed25519_getPublicKey : bytes -> Completion bytes;
  ed25519_sign : bytes -> bytes -> Completion bytes;
  ed25519_verify : bytes -> bytes -> bytes -> Completion bool;
  (** the global object has a function [postMessage]: it has one in a worker
      scope; the global object of Node, which is what the standalone process
      runs in, has none *)
  global_postMessage : bool
}.

(** What the worker has consumed and produced so far. *)
Record World : Type := {
  clock_reads : nat;            (** calls of [time()] *)
  random_draws : nat;           (** calls of [randomBytes] *)
  posted : list string;         (** [self.postMessage], oldest first *)
  console_errors : list string  (** [console.error], oldest first *)
}.

Definition initial_world : World :=
  {| clock_reads := 0; random_draws := 0; posted := []; console_errors := [] |}.

(** An asynchronous computation, awaited: it changes the world and fulfils
    or rejects. *)
Definition Async (A : Type) : Type := World -> Completion A * World.

Definition ret {A : Type} (a : A) : Async A := fun w => (Normal a, w).

Definition bind {A B : Type} (m : Async A) (k : A -> Async B) : Async B :=
  fun w =>
    match m w with
    | (Normal a, w') => k a w'
    | (Throw e, w') => (Throw e, w')
    end.

(** The outcome of a library call, as a computation. *)
Definition call {A : Type} (c : Completion A) : Async A := fun w => (c, w).

Declare Scope async_scope.
Delimit Scope async_scope with async.
Notation "x <- m ;; k" := (bind m (fun x => k))
  (at level 61, m at next level, right associativity) : async_scope.
Notation "' pat <- m ;; k" := (bind m (fun x => match x with pat => k end))
  (at level 61, pat pattern, m at next level, right associativity) : async_scope.
Notation "m ;; k" := (bind m (fun _ => k))
  (at level 61, right associativity) : async_scope.

(** [console.error(...)], with its arguments joined into one line. *)
Definition console_error (line : string) : Async unit :=
  fun w =>
    (Normal tt,
     {| clock_reads := clock_reads w; random_draws := random_draws w;
        posted := posted w;
        console_errors := console_errors w ++ [line] |}).

(** ** The worker *)

(** The five variables [main] declares with [let]. *)
Record Averages : Type := {
  generateDataAverage : number;
  hashDataAverage : number;
  signDataAverage : number;
  verifyAverage : number;
  (** [totalSamples] holds a non-negative integer; it is kept as that
      integer *)
  totalSamples : Z
}.

(** [n + 1] on a number that holds the integer [n]: exact up to [2^53];
    at [2^53] the sum [2^53 + 1] lies halfway between two binary64 values
    and rounds back to [2^53]. *)
Definition plus_one (n : Z) : Z :=
  if n <? 2 ^ 53 then n + 1 else n.

(** The two kinds of value token of the status line:
    [numberWithCommas(totalSamples.toString().padStart(10, '0'))] and
    [numberWithCommas(average.toFixed(3)) + 'ms']. *)
Definition sample_count_token (totalSamples : Z) : string :=
  numberWithCommas
    (JSString.padStart 10 "0" (JSString.digits_of_Z totalSamples)).

Definition average_token (average : number) : string :=
  numberWithCommas (JSNumberOps.toFixed average 3) ++ "ms".

(** The counter after [k] increments. *)
Fixpoint count_after (k : nat) (n : Z) : Z :=
  match k with
  | O => n
  | S k' => count_after k' (plus_one n)
  end.

(** What one pass through the body of [while (looping)] ends with. *)
Inductive Control : Type :=
| Continue (st : Averages)
| Break (st : Averages).

(** What the loop has come to after a number of passes. *)
Inductive LoopResult : Type :=
| Exited (st : Averages)
| StillLooping (st : Averages).

Section Worker.

Variable host : Host.

Local Open Scope async_scope.

(** The value of the [k]-th call of [time()]. *)
Definition clock_value (k : nat) : number :=
  match hrtime host with
  | Some bigint => JSNumberOps.of_Z (bigint k)
  | None => performance_now host k
  end.

Definition time : Async number :=
  fun w =>
    (Normal (clock_value (clock_reads w)),
     {| clock_reads := S (clock_reads w); random_draws := random_draws w;
        posted := posted w; console_errors := console_errors w |}).

Definition Ed25519Wrapper_hashData (data : bytes) : Async bytes :=
  call (crypto_sha512 host data).

Definition Ed25519Wrapper_sign (dataHash privateKey : bytes) : Async bytes :=
  call (ed25519_sign host dataHash privateKey).

Definition Ed25519Wrapper_verify (signature dataHash publicKey : bytes)
  : Async bool :=
  call (ed25519_verify host signature dataHash publicKey).

Definition Ed25519Wrapper_makePrivateKey : Async bytes :=
  call (ed25519_randomPrivateKey host).

Definition Ed25519Wrapper_getPublicKey (privateKey : bytes) : Async bytes :=
  call (ed25519_getPublicKey host privateKey).

(** [self.postMessage(message)], where [self] is [globalThis], which the
    source takes to be a worker scope ([globalThis as unknown as Worker]).
    In a worker scope posting a string succeeds, and the page gets the
    messages in the order they were posted.  Where the global object has no
    [postMessage] the call throws a [TypeError]. *)
Definition postMessage_TypeError : Error :=
  "TypeError: self.postMessage is not a function".

Definition postMessage (message : string) : Async unit :=
  fun w =>
    if global_postMessage host then
      (Normal tt,
       {| clock_reads := clock_reads w; random_draws := random_draws w;
          posted := posted w ++ [message];
          console_errors := console_errors w |})
    else (Throw postMessage_TypeError, w).

Definition DataGenerator_generateBytes (size : nat) : Async bytes :=
  fun w =>
    (crypto_randomBytes host (random_draws w) size,
     {| clock_reads := clock_reads w; random_draws := S (random_draws w);
        posted := posted w; console_errors := console_errors w |}).

Definition timeBlock {T : Type} (cb : Async T) : Async (T * number) :=
  start <- time ;;
  r <- cb ;;
  end_ <- time ;;
  ret (r, PrimFloat.sub end_ start).

(** The string [main] posts. *)
Definition status_line (st : Averages) : string :=
  JSString.join " "
    [ "totalSamples";
      sample_count_token (totalSamples st);
      "generate";
      average_token (generateDataAverage st);
      "hash";
      average_token (hashDataAverage st);
      "sign";
      average_token (signDataAverage st);
      "verify";
      average_token (verifyAverage st) ].

(** The assignments to the four averages and to [totalSamples]. *)
Definition record_samples (st : Averages)
  (generateDataTime hashDataTime signDataTime verifyTime : number) : Averages :=
  {| generateDataAverage :=
       approxRollingAverage (generateDataAverage st) generateDataTime
         100%float;
     hashDataAverage :=
       approxRollingAverage (hashDataAverage st) hashDataTime
         100%float;
     signDataAverage :=
       approxRollingAverage (signDataAverage st) signDataTime
         100%float;
     verifyAverage :=
       approxRollingAverage (verifyAverage st) verifyTime
         100%float;
     totalSamples := plus_one (totalSamples st) |}.

(** One pass through the body of the loop. *)
Definition iteration (privateKey publicKey : bytes) (st : Averages)
  : Async Control :=
  '(data, generateDataTime) <- timeBlock (DataGenerator_generateBytes 2048) ;;
  '(dataHash, hashDataTime) <- timeBlock (Ed25519Wrapper_hashData data) ;;
  '(signature, signDataTime) <-
     timeBlock (Ed25519Wrapper_sign dataHash privateKey) ;;
  '(verifyResult, verifyTime) <-
     timeBlock (Ed25519Wrapper_verify signature dataHash publicKey) ;;
  if negb verifyResult then
    console_error "Failed to Verify" ;;
    ret (Break st)
  else
    let st' :=
      record_samples st generateDataTime hashDataTime signDataTime verifyTime in
    (if totalSamples st' mod 100 =? 0
     then postMessage (status_line st')
     else ret tt) ;;
    ret (Continue st').

(** [while (looping) { ... }], for at most [passes] passes. *)
Fixpoint while_looping (passes : nat) (privateKey publicKey : bytes)
  (st : Averages) : Async LoopResult :=
  match passes with
  | O => ret (StillLooping st)
  | S passes' =>
      c <- iteration privateKey publicKey st ;;
      match c with
      | Break st' => ret (Exited st')
      | Continue st' => while_looping passes' privateKey publicKey st'
      end
  end.

Definition initial_averages : Averages :=
  {| generateDataAverage := 0%float;
     hashDataAverage := 0%float;
     signDataAverage := 0%float;
     verifyAverage := 0%float;
     totalSamples := 0 |}.

(** [main]: [Some 0] once it has returned, [None] while the loop is still
    running after [passes] passes. *)
Definition main (passes : nat) (args : list string) : Async (option Z) :=
  privateKey <- Ed25519Wrapper_makePrivateKey ;;
  publicKey <- Ed25519Wrapper_getPublicKey privateKey ;;
  r <- while_looping passes privateKey publicKey initial_averages ;;
  match r with
  | Exited _ => ret (Some 0)
  | StillLooping _ => ret None
  end.

(** The last statement of the module.  The result is the exit code of the
    process, once one is set.  [require.main === module] holds in the
    standalone process, where the module is the one Node was started with;
    the global object is then Node's ([global_postMessage host = false]). *)
Definition bootstrap (require_main_is_module : bool) (passes : nat)
  (args : list string) (w : World) : option Z * World :=
  if require_main_is_module then
    match main passes args w with
    | (Normal exitCode, w') => (exitCode, w')
    | (Throw err, w') =>
        (Some 1, snd (console_error ("Fatal " ++ err) w'))
    end
  else
    match main passes args w with
    | (Normal _, w') => (None, w')
    | (Throw err, w') => (None, snd (console_error ("Fatal " ++ err) w'))
    end.

(** *** What a run is observed to do *)

(** The duration a [timeBlock] measures when its first reading of the
    clock is the [t]-th one. *)
Definition measured (t : nat) : number :=
  PrimFloat.sub (clock_value (S t)) (clock_value t).

(** The samples one stage (0: generate, 1: hash, 2: sign, 3: verify)
    contributes in [k] consecutive passes, the first of which starts at
    clock reading [t]; a pass reads the clock 8 times. *)
Fixpoint stage_samples (stage t k : nat) : list number :=
  match k with
  | O => []
  | S k' => measured (2 * stage + t) :: stage_samples stage (8 + t) k'
  end.

(** What [verify] returns in the pass that starts in world [w]; [None]
    when a library call of that pass rejects. *)
Definition verify_outcome (privateKey publicKey : bytes) (w : World)
  : option bool :=
  match crypto_randomBytes host (random_draws w) 2048 with
  | Normal data =>
      match crypto_sha512 host data with
      | Normal dataHash =>
          match ed25519_sign host dataHash privateKey with
          | Normal signature =>
              match ed25519_verify host signature dataHash publicKey with
              | Normal verifyResult => Some verifyResult
              | Throw _ => None
              end
          | Throw _ => None
          end
      | Throw _ => None
      end
  | Throw _ => None
  end.

(** A pass that verified and came to the averages [st'] has a line to post
    and no [postMessage] to post it with. *)
Definition post_fails (st' : Averages) : bool :=
  (totalSamples st' mod 100 =? 0) && negb (global_postMessage host).

(** The world after a whole pass that posted [messages] and logged
    [errors]. *)
Definition after_pass (w : World) (messages errors : list string) : World :=
  {| clock_reads := 8 + clock_reads w;
     random_draws := S (random_draws w);
     posted := posted w ++ messages;
     console_errors := console_errors w ++ errors |}.

(** The averages after a pass that starts at clock reading [t] and
    verifies. *)
Definition record_pass (st : Averages) (t : nat) : Averages :=
  record_samples st
    (measured t) (measured (2 + t)) (measured (4 + t)) (measured (6 + t)).

End Worker.

(** The averages a run has come to. *)
Definition averages_of (r : Completion LoopResult * World) : Averages :=
  match fst r with
  | Normal (StillLooping st) => st
  | Normal (Exited st) => st
  | Throw _ => initial_averages
  end.

(** ** Concrete hosts, to run the worker on *)

Module Hosts.

(** A worker scope whose clock advances by [step] nanoseconds between two
    readings, and whose library calls all fulfil; [verify] answers
    [verdict]. *)
Definition steady (step : Z) (verdict : bool) : Host :=
  {| hrtime := Some (fun k => step * Z.of_nat k);
     performance_now := fun _ => 0%float;
     crypto_randomBytes := fun _ size => Normal (repeat Byte.x00 size);
     crypto_sha512 := fun data => Normal (firstn 64 data);
     ed25519_randomPrivateKey := Normal (repeat Byte.x01 32);
     ed25519_getPublicKey := fun sk => Normal sk;
     ed25519_sign := fun dataHash sk => Normal (sk ++ dataHash)%list;
     ed25519_verify := fun _ _ _ => Normal verdict;
     global_postMessage := true |}.

(** A worker scope in which [verify] answers [true] on the first [good]
    passes and [false] afterwards: the verdict is read off the sample drawn,
    which carries the number of the draw. *)
Definition failing_after (good : nat) : Host :=
  {| hrtime := Some (fun k => 5 * Z.of_nat k);
     performance_now := fun _ => 0%float;
     crypto_randomBytes := fun draw size => Normal (repeat Byte.x00 draw);
     crypto_sha512 := fun data => Normal data;
     ed25519_randomPrivateKey := Normal (repeat Byte.x01 32);
     ed25519_getPublicKey := fun sk => Normal sk;
     ed25519_sign := fun dataHash sk => Normal dataHash;
     ed25519_verify :=
       fun signature _ _ => Normal (Nat.ltb (List.length signature) good);
     global_postMessage := true |}.

(** A standalone process whose secure random source is unavailable. *)
Definition without_entropy : Host :=
  {| hrtime := None;
     performance_now := fun _ => 0%float;
     crypto_randomBytes := fun _ _ => Throw "no entropy";
     crypto_sha512 := fun data => Normal data;
     ed25519_randomPrivateKey := Throw "no entropy";
     ed25519_getPublicKey := fun sk => Normal sk;
     ed25519_sign := fun dataHash sk => Normal dataHash;
     ed25519_verify := fun _ _ _ => Normal true;
     global_postMessage := false |}.

(** A host as the standalone process finds it: the same clock and
    libraries, and the global object of Node, which has no [postMessage]. *)
Definition node_main (h : Host) : Host :=
  {| hrtime := hrtime h;
     performance_now := performance_now h;
     crypto_randomBytes := crypto_randomBytes h;
     crypto_sha512 := crypto_sha512 h;
     ed25519_randomPrivateKey := ed25519_randomPrivateKey h;
     ed25519_getPublicKey := ed25519_getPublicKey h;
     ed25519_sign := ed25519_sign h;
     ed25519_verify := ed25519_verify h;
     global_postMessage := false |}.

End Hosts.

From Stdlib Require DecimalFacts DecimalPos DecimalN Nnat.

(** ** Reference formats

    What the formatting functions are expected to produce, written directly;
    the lemmas below compare the source with them. *)

(** A string of decimal digits. *)
Fixpoint all_digits (s : string) : bool :=
  match s with
  | EmptyString => true
  | String c s' => Regex.digit c && all_digits s'
  end.

(** A comma is due in front of [r] remaining digits when they make up whole
    groups of three. *)
Definition comma_due (r : nat) : bool :=
  (0 <? r)%nat && (r mod 3 =? 0)%nat.

(** Thousands separators, counted from the right: a comma after every
    character that has a positive multiple of three characters after it. *)
Fixpoint group_thousands (s : string) : string :=
  match s with
  | EmptyString => EmptyString
  | String c s' =>
      String c
        ((if comma_due (String.length s') then "," else "")
         ++ group_thousands s')
  end.





(** The last character of [String c s]. *)
Fixpoint last_char (s : string) (c : ascii) : ascii :=
  match s with
  | EmptyString => c
  | String c' s' => last_char s' c'
  end.

(** The value of a decimal digit, and of a list of digits, least significant
    first. *)
Definition digit_value (d : DecimalFacts.digits) : N :=
  match d with
  | DecimalFacts.d0 => 0 | DecimalFacts.d1 => 1 | DecimalFacts.d2 => 2
  | DecimalFacts.d3 => 3 | DecimalFacts.d4 => 4 | DecimalFacts.d5 => 5
  | DecimalFacts.d6 => 6 | DecimalFacts.d7 => 7 | DecimalFacts.d8 => 8
  | DecimalFacts.d9 => 9
  end%N.

Fixpoint little_value (l : list DecimalFacts.digits) : N :=
  match l with
  | nil => 0
  | cons d l' => digit_value d + 10 * little_value l'
  end%N.

(** ** Observations on a pass that rejects *)

(** The error a pass that starts in world [w] ends with, when one of its
    library calls rejects, and how often the pass has read the clock by
    then: the reading before the call that rejects is the last one. *)
Definition pass_rejection (host : Host) (privateKey publicKey : bytes)
  (w : World) : option (Error * nat) :=
  match crypto_randomBytes host (random_draws w) 2048 with
  | Throw e => Some (e, 1%nat)
  | Normal data =>
      match crypto_sha512 host data with
      | Throw e => Some (e, 3%nat)
      | Normal dataHash =>
          match ed25519_sign host dataHash privateKey with
          | Throw e => Some (e, 5%nat)
          | Normal signature =>
              match ed25519_verify host signature dataHash publicKey with
              | Throw e => Some (e, 7%nat)
              | Normal _ => None
              end
          end
      end
  end.

(** ** How the standalone process can end

    The three ways a run of [passes] passes from world [w] can have gone,
    told by what the host did. *)

(** An uncaught error: the setup rejects, or, after some passes that all
    verified, a library call of the next pass rejects or the pass has a
    line to post and the global object has no [postMessage]. *)
Definition fatal_error (host : Host) (passes : nat) (w : World) : Prop :=
  (exists e, ed25519_randomPrivateKey host = Throw e)
  \/ (exists privateKey e,
        ed25519_randomPrivateKey host = Normal privateKey
        /\ ed25519_getPublicKey host privateKey = Throw e)
  \/ (exists privateKey publicKey (k : nat) (st : Averages) (w1 : World),
        ed25519_randomPrivateKey host = Normal privateKey
        /\ ed25519_getPublicKey host privateKey = Normal publicKey
        /\ (k < passes)%nat
        /\ while_looping host k privateKey publicKey initial_averages w
           = (Normal (StillLooping st), w1)
        /\ ((exists e reads,
               pass_rejection host privateKey publicKey w1 = Some (e, reads))
            \/ (verify_outcome host privateKey publicKey w1 = Some true
                /\ post_fails host (record_pass host st (clock_reads w1))
                   = true))).

(** The graceful end: after some passes that all verified, [verify]
    returns [false]. *)
Definition failed_verification (host : Host) (passes : nat) (w : World)
  : Prop :=
  exists privateKey publicKey (k : nat) (st : Averages) (w1 : World),
    ed25519_randomPrivateKey host = Normal privateKey
    /\ ed25519_getPublicKey host privateKey = Normal publicKey
    /\ (k < passes)%nat
    /\ while_looping host k privateKey publicKey initial_averages w
       = (Normal (StillLooping st), w1)
    /\ verify_outcome host privateKey publicKey w1 = Some false.

(** No end yet: the setup succeeded and all [passes] passes verified. *)
Definition still_running (host : Host) (passes : nat) (w : World) : Prop :=
  exists privateKey publicKey (st : Averages) (w1 : World),
    ed25519_randomPrivateKey host = Normal privateKey
    /\ ed25519_getPublicKey host privateKey = Normal publicKey
    /\ while_looping host passes privateKey publicKey initial_averages w
       = (Normal (StillLooping st), w1).

(** A status line that reports [0.000ms] for all four stages. *)
Definition idle_line (message : string) : Prop :=
  exists count : Z,
    message
    = "totalSamples " ++ sample_count_token count
      ++ " generate 0.000ms hash 0.000ms sign 0.000ms verify 0.000ms".

(** All four averages are [+0]. *)
Definition idle_averages (st : Averages) : Prop :=
  generateDataAverage st = 0%float
  /\ hashDataAverage st = 0%float
  /\ signDataAverage st = 0%float
  /\ verifyAverage st = 0%float.

(** ** More concrete hosts *)

Module MoreHosts.

(** A worker scope in which signing works for the first [good] passes and
    rejects afterwards; the sample drawn carries the number of the draw, as in
    [Hosts.failing_after]. *)
Definition signing_breaks_after (good : nat) : Host :=
  {| hrtime := Some (fun k => 5 * Z.of_nat k);
     performance_now := fun _ => 0%float;
     crypto_randomBytes := fun draw size => Normal (repeat Byte.x00 draw);
     crypto_sha512 := fun data => Normal data;
     ed25519_randomPrivateKey := Normal (repeat Byte.x01 32);
     ed25519_getPublicKey := fun sk => Normal sk;
     ed25519_sign :=
       fun dataHash sk =>
         if Nat.ltb (List.length dataHash) good
         then Normal dataHash
         else Throw "invalid private key";
     ed25519_verify := fun _ _ _ => Normal true;
     global_postMessage := true |}.

(** A worker scope without [process.hrtime] whose [performance.now()] is too
    coarse to see a stage: it always reads the same millisecond. *)
Definition coarse_clock : Host :=
  {| hrtime := None;
     performance_now := fun _ => 1024%float;
     crypto_randomBytes := fun _ size => Normal (repeat Byte.x00 size);
     crypto_sha512 := fun data => Normal (firstn 64 data);
     ed25519_randomPrivateKey := Normal (repeat Byte.x01 32);
     ed25519_getPublicKey := fun sk => Normal sk;
     ed25519_sign := fun dataHash sk => Normal (sk ++ dataHash)%list;
     ed25519_verify := fun _ _ _ => Normal true;
     global_postMessage := true |}.


End MoreHosts.

(** ** The page script ([index.ts])

    The script spawns the worker, looks up the element [#pre] and, if the
    document has one, prepends every message of the worker to it as a line
    of text. *)

Module Page.

(** A child of the log element: a text node, or whatever else the author
    of the page put there, with the text it contributes. *)
Inductive Node : Type :=
| TextNode (data : string)
| OtherNode (text : string).

Definition node_text (n : Node) : string :=
  match n with
  | TextNode data => data
  | OtherNode text => text
  end.

(** The line feed, ['\n']. *)
Definition newline : string := String "010"%char EmptyString.

(** [parent.firstChild], as a position among the children; [null] when
    there is none. *)
Definition firstChild (children : list Node) : option nat :=
  match children with
  | [] => None
  | _ :: _ => Some 0%nat
  end.

(** [parent.insertBefore(newNode, referenceNode)]: with [null] for the
    reference the new node goes to the end. *)
Definition insertBefore (children : list Node) (newNode : Node)
  (referenceNode : option nat) : list Node :=
  match referenceNode with
  | None => children ++ [newNode]
  | Some i => firstn i children ++ newNode :: skipn i children
  end.

(** [parent.textContent] *)
Definition textContent (children : list Node) : string :=
  String.concat "" (map node_text children).

Record State : Type := {
  (** the children of [#pre], when the document has such an element *)
  pre : option (list Node);
  (** workers spawned so far *)
  workers : nat;
  (** a listener for [message] is registered on the worker *)
  listening : bool
}.

(** The listener:
    [ev => pre.insertBefore(document.createTextNode(ev.data + '\n'), pre.firstChild)]. *)
Definition on_message (data : string) (children : list Node) : list Node :=
  insertBefore children (TextNode (data ++ newline)) (firstChild children).

(** The script, run when the page loads. *)
Definition index_ts (page : State) : Completion unit * State :=
  let page :=
    {| pre := pre page; workers := S (workers page);
       listening := listening page |} in
  match pre page with
  | None => (Throw "Not Implemented", page)
  | Some _ =>
      (Normal tt,
       {| pre := pre page; workers := workers page; listening := true |})
  end.

(** A [message] event of the worker reaches the page. *)
Definition message_event (page : State) (data : string) : State :=
  if listening page then
    match pre page with
    | Some children =>
        {| pre := Some (on_message data children);
           workers := workers page; listening := listening page |}
    | None => page
    end
  else page.

(** The messages of the worker reach the page in the order they were
    posted. *)
Definition message_events (page : State) (messages : list string) : State :=
  fold_left message_event messages page.

(** A page as it is before the script runs. *)
Definition fresh (children : option (list Node)) : State :=
  {| pre := children; workers := 0; listening := false |}.

End Page.

(** A string without any decimal digit. *)
Fixpoint no_digits (s : string) : bool :=
  match s with
  | EmptyString => true
  | String c s' => negb (Regex.digit c) && no_digits s'
  end.

(** A state of the averages whose counter holds [n]. *)
Definition averages_at (n : Z) : Averages :=
  {| generateDataAverage := 0%float;
     hashDataAverage := 0%float;
     signDataAverage := 0%float;
     verifyAverage := 0%float;
     totalSamples := n |}.

(** The counter of a result of the loop. *)
Definition counter_of (r : Completion LoopResult) : option Z :=
  match r with
  | Normal (StillLooping st) => Some (totalSamples st)
  | Normal (Exited st) => Some (totalSamples st)
  | Throw _ => None
  end.

(** * Lemmas *)

(** ** [numberWithCommas] *)

Section NumberWithCommas.

Import JSString Regex.

Lemma replace_from_unfold (r : string) (prev : option ascii) (rest : string) :
  replace_from r prev rest =
  (if matches_at prev rest then r else "")
  ++ match rest with
     | EmptyString => EmptyString
     | String c rest' => String c (replace_from r (Some c) rest')
     end.
Proof. destruct rest; reflexivity. Qed.

Lemma replace_from_inserted (rest : string) :
  forall prev, commas_inserted rest (replace_from "," prev rest).
Proof.
  induction rest as [|c rest IH]; intros prev; rewrite replace_from_unfold.
  - destruct (matches_at prev ""); cbn; repeat constructor.
  - destruct (matches_at prev (String c rest)); cbn;
      repeat constructor; apply IH.
Qed.

Lemma delete_commas_replace_from (rest : string) :
  forall prev,
    delete_commas (replace_from "," prev rest) = delete_commas rest.
Proof.
  induction rest as [|c rest IH]; intros prev; rewrite replace_from_unfold.
  - destruct (matches_at prev ""); reflexivity.
  - destruct (matches_at prev (String c rest)); cbn [append delete_commas];
      change (Ascii.eqb "," ",") with true; cbn iota;
      rewrite IH; reflexivity.
Qed.

Lemma delete_commas_without_comma (x : string) :
  has_comma x = false -> delete_commas x = x.
Proof.
  induction x as [|c x IH]; cbn; [reflexivity|].
  destruct (Ascii.eqb c ","); cbn; [discriminate|].
  intros Hx. now rewrite IH.
Qed.

End NumberWithCommas.

(** ** [toFixed] *)

Section Formatting.

Import JSString JSNumberOps.

Lemma length_append (a b : string) :
  String.length (a ++ b) = (String.length a + String.length b)%nat.
Proof. induction a as [|c a IH]; cbn; [reflexivity|now rewrite IH]. Qed.

Lemma append_assoc (a b c : string) : (a ++ b) ++ c = a ++ (b ++ c).
Proof. induction a as [|x a IH]; cbn; [reflexivity|now rewrite IH]. Qed.

Lemma length_repeat_char (c : ascii) (n : nat) :
  String.length (repeat_char c n) = n.
Proof. induction n as [|n IH]; cbn; [reflexivity|now rewrite IH]. Qed.

Lemma length_padStart (t : nat) (c : ascii) (s : string) :
  (t <= String.length (padStart t c s))%nat.
Proof. unfold padStart. rewrite length_append, length_repeat_char. lia. Qed.

Lemma length_substring (s : string) :
  forall a b, (a + b <= String.length s)%nat ->
              String.length (substring a b s) = b.
Proof.
  induction s as [|c s IH]; intros a b Hab; cbn in Hab.
  - assert (a = 0%nat) by lia. assert (b = 0%nat) by lia. subst. reflexivity.
  - destruct a as [|a]; cbn.
    + destruct b as [|b]; cbn; [reflexivity|].
      rewrite (IH 0%nat b); [reflexivity|lia].
    + apply IH. lia.
Qed.

End Formatting.

(** ** The rolling average *)

Section RollingAverage.

Local Open Scope float_scope.

Lemma approxRollingAverage_ema_rule (avg s : number) :
  approxRollingAverage avg s 100 = ema_rule avg s.
Proof. reflexivity. Qed.

Lemma feed_samples_iterate (samples : list number) :
  forall avg, feed_samples 100 samples avg = iterate_ema_rule samples avg.
Proof.
  induction samples as [|s rest IH]; intros avg; [reflexivity|].
  cbn [feed_samples fold_left iterate_ema_rule].
  rewrite approxRollingAverage_ema_rule. apply IH.
Qed.

End RollingAverage.

(** ** One pass of the loop *)

Section Pass.

Variable host : Host.
Variables privateKey publicKey : bytes.

Ltac run_pass :=
  unfold verify_outcome, iteration, timeBlock, DataGenerator_generateBytes,
    Ed25519Wrapper_hashData, Ed25519Wrapper_sign, Ed25519Wrapper_verify,
    time, call, bind, ret, postMessage, console_error, after_pass, record_pass,
    measured;
  cbn [fst snd clock_reads random_draws posted console_errors].

Ltac case_calls w :=
  destruct (crypto_randomBytes host (random_draws w) 2048) as [data|?];
  [ destruct (crypto_sha512 host data) as [dataHash|?];
    [ destruct (ed25519_sign host dataHash privateKey) as [signature|?];
      [ destruct (ed25519_verify host signature dataHash publicKey)
          as [[|]|?]
      | ]
    | ]
  | ].

(** A pass in which [verify] returns [true], and which posts its line if
    it has one to post. *)
Lemma iteration_verified (st : Averages) (w : World) :
  verify_outcome host privateKey publicKey w = Some true ->
  post_fails host (record_pass host st (clock_reads w)) = false ->
  iteration host privateKey publicKey st w =
  (Normal (Continue (record_pass host st (clock_reads w))),
   after_pass w
     (if totalSamples (record_pass host st (clock_reads w)) mod 100 =? 0
      then [status_line (record_pass host st (clock_reads w))]
      else [])
     []).
Proof.
  unfold post_fails. run_pass. case_calls w; intros Hv; try discriminate Hv.
  cbn [negb].
  destruct (_ mod 100 =? 0); destruct (global_postMessage host);
    cbn; rewrite ?app_nil_r; try discriminate; reflexivity.
Qed.

(** A pass in which [verify] returns [true], with a line to post and no
    [postMessage]: the call throws after the four stages have run. *)
Lemma iteration_unposted (st : Averages) (w : World) :
  verify_outcome host privateKey publicKey w = Some true ->
  post_fails host (record_pass host st (clock_reads w)) = true ->
  iteration host privateKey publicKey st w =
  (Throw postMessage_TypeError, after_pass w [] []).
Proof.
  unfold post_fails. run_pass. case_calls w; intros Hv; try discriminate Hv.
  cbn [negb].
  destruct (_ mod 100 =? 0); destruct (global_postMessage host);
    cbn; rewrite ?app_nil_r; try discriminate; reflexivity.
Qed.

(** A pass in which [verify] returns [false]. *)
Lemma iteration_failed (st : Averages) (w : World) :
  verify_outcome host privateKey publicKey w = Some false ->
  iteration host privateKey publicKey st w =
  (Normal (Break st), after_pass w [] ["Failed to Verify"]).
Proof.
  run_pass. case_calls w; intros Hv; try discriminate Hv.
  cbn. rewrite ?app_nil_r. reflexivity.
Qed.

(** A pass in which a library call rejects. *)
Lemma iteration_rejected (st : Averages) (w : World) :
  verify_outcome host privateKey publicKey w = None ->
  exists e w',
    iteration host privateKey publicKey st w = (Throw e, w')
    /\ posted w' = posted w
    /\ console_errors w' = console_errors w.
Proof.
  run_pass. case_calls w; intros Hv; try discriminate Hv;
    eexists; eexists; (split; [reflexivity|]); split; reflexivity.
Qed.

End Pass.

(** ** The loop *)

Section LoopStep.

Variable host : Host.
Variables privateKey publicKey : bytes.

Local Notation "'loop' passes" :=
  (while_looping host passes privateKey publicKey)
  (at level 10, passes at level 9, only parsing).
Local Notation "'outcome'" :=
  (verify_outcome host privateKey publicKey) (only parsing).

Lemma loop_verified (passes : nat) (st : Averages) (w : World) :
  outcome w = Some true ->
  post_fails host (record_pass host st (clock_reads w)) = false ->
  loop (S passes) st w =
  loop passes (record_pass host st (clock_reads w))
    (after_pass w
       (if totalSamples (record_pass host st (clock_reads w)) mod 100 =? 0
        then [status_line (record_pass host st (clock_reads w))]
        else [])
       []).
Proof.
  intros Hv Hpost. cbn [while_looping]. unfold bind at 1.
  rewrite (iteration_verified host privateKey publicKey st w Hv Hpost).
  reflexivity.
Qed.

Lemma loop_unposted (passes : nat) (st : Averages) (w : World) :
  outcome w = Some true ->
  post_fails host (record_pass host st (clock_reads w)) = true ->
  loop (S passes) st w = (Throw postMessage_TypeError, after_pass w [] []).
Proof.
  intros Hv Hpost. cbn [while_looping]. unfold bind at 1.
  rewrite (iteration_unposted host privateKey publicKey st w Hv Hpost).
  reflexivity.
Qed.

Lemma loop_failed (passes : nat) (st : Averages) (w : World) :
  outcome w = Some false ->
  loop (S passes) st w =
  (Normal (Exited st), after_pass w [] ["Failed to Verify"]).
Proof.
  intros Hv. cbn [while_looping]. unfold bind at 1.
  rewrite (iteration_failed host privateKey publicKey st w Hv).
  reflexivity.
Qed.

Lemma loop_rejected (st : Averages) (w : World) :
  outcome w = None ->
  exists e w',
    (forall passes, loop (S passes) st w = (Throw e, w'))
    /\ posted w' = posted w
    /\ console_errors w' = console_errors w.
Proof.
  intros Hv.
  destruct (iteration_rejected host privateKey publicKey st w Hv)
    as (e & w' & Hit & Hp & Hc).
  exists e, w'. repeat split; try assumption.
  intros passes. cbn [while_looping]. unfold bind at 1. rewrite Hit.
  reflexivity.
Qed.

(** A pass that ends in an error, of a library call or of [postMessage]:
    nothing is posted and nothing is logged in it. *)
Lemma loop_thrown (st : Averages) (w : World) :
  outcome w = None
  \/ (outcome w = Some true
      /\ post_fails host (record_pass host st (clock_reads w)) = true) ->
  exists e w',
    (forall passes, loop (S passes) st w = (Throw e, w'))
    /\ posted w' = posted w
    /\ console_errors w' = console_errors w.
Proof.
  intros [Hv|[Hv Hpost]].
  - now apply loop_rejected.
  - exists postMessage_TypeError, (after_pass w [] []). split; [|split].
    + intros passes. now apply loop_unposted.
    + cbn. apply app_nil_r.
    + cbn. apply app_nil_r.
Qed.

End LoopStep.

(** Case analysis on the first pass of a run: it verifies and goes on, it
    fails to verify, or it ends in an error. *)
Ltac first_pass host privateKey publicKey passes st w :=
  let Hv := fresh "Hv" in
  let Hpost := fresh "Hpost" in
  let e := fresh "e" in
  let w' := fresh "w'" in
  let Hr := fresh "Hr" in
  let Hp := fresh "Hp" in
  let Hc := fresh "Hc" in
  destruct (verify_outcome host privateKey publicKey w) as [[|]|] eqn:Hv;
  [ destruct (post_fails host (record_pass host st (clock_reads w)))
      eqn:Hpost;
    [ destruct (loop_thrown host privateKey publicKey st w
                  (or_intror (conj Hv Hpost)))
        as (e & w' & Hr & Hp & Hc);
      rewrite (Hr passes)
    | rewrite (loop_verified host privateKey publicKey passes st w Hv Hpost) ]
  | rewrite (loop_failed host privateKey publicKey passes st w Hv)
  | destruct (loop_thrown host privateKey publicKey st w (or_introl Hv))
      as (e & w' & Hr & Hp & Hc);
    rewrite (Hr passes) ].

Section Loop.

Variable host : Host.
Variables privateKey publicKey : bytes.

Local Notation "'loop' passes" :=
  (while_looping host passes privateKey publicKey)
  (at level 10, passes at level 9, only parsing).
Local Notation "'outcome'" :=
  (verify_outcome host privateKey publicKey) (only parsing).

Ltac cases passes st w := first_pass host privateKey publicKey passes st w.

(** Running [k + m] passes is running [k] passes and, if the loop is still
    going, [m] more. *)
Lemma loop_add (k m : nat) :
  forall st w,
    loop (k + m)%nat st w =
    match loop k st w with
    | (Normal (StillLooping st'), w') => loop m st' w'
    | r => r
    end.
Proof.
  induction k as [|k IH]; intros st w; [reflexivity|].
  change (S k + m)%nat with (S (k + m)).
  cases (k + m)%nat st w.
  - rewrite (Hr k). reflexivity.
  - rewrite (loop_verified _ _ _ k st w Hv Hpost). apply IH.
  - rewrite (loop_failed _ _ _ k st w Hv). reflexivity.
  - rewrite (Hr k). reflexivity.
Qed.






(** A run that is still looping after [k] passes: every pass verified;
    the averages are the stage samples fed in, the counter was incremented
    [k] times, nothing was logged. *)
Lemma still_looping (k : nat) :
  forall st w st' w',
    loop k st w = (Normal (StillLooping st'), w') ->
    generateDataAverage st' =
      feed_samples 100%float (stage_samples host 0 (clock_reads w) k)
        (generateDataAverage st)
    /\ hashDataAverage st' =
       feed_samples 100%float (stage_samples host 1 (clock_reads w) k)
         (hashDataAverage st)
    /\ signDataAverage st' =
       feed_samples 100%float (stage_samples host 2 (clock_reads w) k)
         (signDataAverage st)
    /\ verifyAverage st' =
       feed_samples 100%float (stage_samples host 3 (clock_reads w) k)
         (verifyAverage st)
    /\ totalSamples st' = count_after k (totalSamples st)
    /\ clock_reads w' = (8 * k + clock_reads w)%nat
    /\ console_errors w' = console_errors w.
Proof.
  induction k as [|k IH]; intros st w st' w'.
  - cbn. intros [= <- <-]. repeat split; reflexivity.
  - cases k st w; intros Hrun; try discriminate Hrun.
    apply IH in Hrun.
    destruct Hrun as (Hg & Hh & Hs & Hvf & Ht & Hc & He).
    cbn [after_pass clock_reads console_errors record_pass record_samples
           generateDataAverage hashDataAverage signDataAverage verifyAverage
           totalSamples] in *.
    rewrite app_nil_r in He.
    repeat split; try assumption.
    rewrite Hc. lia.
Qed.

(** A run that left the loop did so right after logging the failure. *)
Lemma loop_exited (k : nat) :
  forall st w st' w',
    loop k st w = (Normal (Exited st'), w') ->
    exists errors, console_errors w' = (errors ++ ["Failed to Verify"])%list.
Proof.
  induction k as [|k IH]; intros st w st' w'.
  - cbn. discriminate.
  - cases k st w; intros Hrun; try discriminate Hrun.
    + now apply IH in Hrun.
    + injection Hrun as <- <-. eexists. reflexivity.
Qed.


End Loop.

(** ** [main] and the bootstrap *)

Section Main.

Variable host : Host.

Lemma main_unfold (passes : nat) (args : list string) (w : World) :
  main host passes args w =
  match ed25519_randomPrivateKey host with
  | Throw e => (Throw e, w)
  | Normal privateKey =>
      match ed25519_getPublicKey host privateKey with
      | Throw e => (Throw e, w)
      | Normal publicKey =>
          match while_looping host passes privateKey publicKey
                  initial_averages w with
          | (Normal (Exited _), w') => (Normal (Some 0), w')
          | (Normal (StillLooping _), w') => (Normal None, w')
          | (Throw e, w') => (Throw e, w')
          end
      end
  end.
Proof.
  unfold main, Ed25519Wrapper_makePrivateKey, Ed25519Wrapper_getPublicKey,
    call, bind, ret.
  destruct (ed25519_randomPrivateKey host) as [privateKey|e]; [|reflexivity].
  destruct (ed25519_getPublicKey host privateKey) as [publicKey|e];
    [|reflexivity].
  destruct (while_looping host passes privateKey publicKey initial_averages w)
    as [[[st|st]|e] w']; reflexivity.
Qed.

(** [main] returns only [0], and only after the loop logged the failed
    verification. *)
Lemma main_returned (passes : nat) (args : list string) (w : World)
  (code : Z) (w' : World) :
  main host passes args w = (Normal (Some code), w') ->
  code = 0
  /\ exists errors, console_errors w' = (errors ++ ["Failed to Verify"])%list.
Proof.
  rewrite main_unfold.
  destruct (ed25519_randomPrivateKey host) as [privateKey|e];
    [|discriminate].
  destruct (ed25519_getPublicKey host privateKey) as [publicKey|e];
    [|discriminate].
  destruct (while_looping host passes privateKey publicKey initial_averages w)
    as [[[st|st]|e] w1] eqn:Hrun; intros [= <- <-].
  split; [reflexivity|]. eapply loop_exited. exact Hrun.
Qed.

(** With a library whose [verify] accepts every signature [sign] produced under
    the matching key, [main] never leaves the loop: it hands [verify] the
    signature of the very digest it signed, and the public key of the private
    key it signed with. *)
Lemma main_with_sound_library (passes : nat) (args : list string) (w : World) :
  (forall privateKey publicKey dataHash signature,
     ed25519_getPublicKey host privateKey = Normal publicKey ->
     ed25519_sign host dataHash privateKey = Normal signature ->
     ed25519_verify host signature dataHash publicKey = Normal true) ->
  forall code w', main host passes args w <> (Normal (Some code), w').
Proof.
  intros Hsound code w'. rewrite main_unfold.
  destruct (ed25519_randomPrivateKey host) as [privateKey|e];
    [|discriminate].
  destruct (ed25519_getPublicKey host privateKey) as [publicKey|e] eqn:Hpk;
    [|discriminate].
  assert (Hnever : forall k st w0 st1 w1,
             while_looping host k privateKey publicKey st w0
             <> (Normal (Exited st1), w1)).
  { induction k as [|k IH]; intros st w0 st1 w1; [discriminate|].
    first_pass host privateKey publicKey k st w0; try discriminate.
    - apply IH.
    - exfalso. revert Hv. unfold verify_outcome.
      destruct (crypto_randomBytes host (random_draws w0) 2048)
        as [data|]; [|discriminate].
      destruct (crypto_sha512 host data) as [dataHash|]; [|discriminate].
      destruct (ed25519_sign host dataHash privateKey)
        as [signature|] eqn:Hsig; [|discriminate].
      rewrite (Hsound _ _ _ _ Hpk Hsig). discriminate. }
  destruct (while_looping host passes privateKey publicKey initial_averages w)
    as [[[st|st]|e] w1] eqn:Hrun; try discriminate.
  exfalso. exact (Hnever _ _ _ _ _ Hrun).
Qed.

End Main.

Section LastPass.

Variable host : Host.
Variables privateKey publicKey : bytes.

(** The [S i]-th pass of a run that is still looping after it. *)
Lemma loop_last_pass (i : nat) (st w st1 w1 st2 w2 : _) :
  while_looping host i privateKey publicKey st w
  = (Normal (StillLooping st1), w1) ->
  while_looping host (S i) privateKey publicKey st w
  = (Normal (StillLooping st2), w2) ->
  verify_outcome host privateKey publicKey w1 = Some true
  /\ st2 = record_pass host st1 (clock_reads w1)
  /\ w2 = after_pass w1
            (if totalSamples st2 mod 100 =? 0 then [status_line st2] else [])
            [].
Proof.
  intros Hprev. replace (S i) with (i + 1)%nat by lia.
  rewrite loop_add, Hprev.
  first_pass host privateKey publicKey 0%nat st1 w1; try discriminate.
  cbn [while_looping ret]. intros [= <- <-]. repeat split.
Qed.

End LastPass.

(** ** Where [numberWithCommas] puts its commas *)

Section DigitRuns.

Import JSString Regex.

Lemma string_ind3 (P : string -> Prop) :
  P "" ->
  (forall a, P (String a "")) ->
  (forall a b, P (String a (String b ""))) ->
  (forall a b c s, P s -> P (String a (String b (String c s)))) ->
  forall s, P s.
Proof.
  intros H0 H1 H2 H3.
  assert (H : forall s, P s /\ (forall a, P (String a s))
                        /\ (forall a b, P (String a (String b s)))).
  { induction s as [|c s (IHs & IHs1 & IHs2)]; repeat split; auto. }
  intros s. apply H.
Qed.

Lemma mod3_add3 (n : nat) : ((3 + n) mod 3 = n mod 3)%nat.
Proof.
  replace (3 + n)%nat with (n + 1 * 3)%nat by lia.
  apply Nat.Div0.mod_add.
Qed.

Lemma digit_is_word (c : ascii) : digit c = true -> word_char c = true.
Proof.
  unfold word_char. intros ->.
  now rewrite Bool.orb_true_r.
Qed.

(** After a run of digits that ends the number, [(\d{3})*(?!\d)] holds
    exactly when the run is made of whole groups of three. *)
Lemma more_groups_run (rest : string) :
  no_digit_ahead rest = true ->
  forall ds,
    all_digits ds = true ->
    more_groups (ds ++ rest) = (String.length ds mod 3 =? 0)%nat.
Proof.
  intros Hrest ds. induction ds as [|a|a b|a b c ds IH] using string_ind3;
    cbn [all_digits]; intros Hds.
  - cbn [append String.length]. destruct rest as [|x [|y [|z r]]];
      cbn [more_groups]; try exact Hrest.
    cbn [no_digit_ahead] in Hrest. apply Bool.negb_true_iff in Hrest.
    rewrite Hrest. cbn. now apply Bool.negb_true_iff.
  - apply Bool.andb_true_iff in Hds. destruct Hds as [Ha _].
    cbn [append String.length]. destruct rest as [|x [|y r]];
      cbn [more_groups no_digit_ahead]; rewrite ?Ha; try reflexivity.
    cbn [no_digit_ahead] in Hrest. apply Bool.negb_true_iff in Hrest.
    rewrite Hrest. now rewrite Bool.andb_false_r.
  - apply Bool.andb_true_iff in Hds. destruct Hds as [Ha Hb].
    apply Bool.andb_true_iff in Hb. destruct Hb as [Hb _].
    cbn [append String.length]. destruct rest as [|x r];
      cbn [more_groups no_digit_ahead]; rewrite ?Ha, ?Hb; try reflexivity.
    cbn [no_digit_ahead] in Hrest. apply Bool.negb_true_iff in Hrest.
    rewrite Hrest. reflexivity.
  - apply Bool.andb_true_iff in Hds. destruct Hds as [Ha Hds].
    apply Bool.andb_true_iff in Hds. destruct Hds as [Hb Hds].
    apply Bool.andb_true_iff in Hds. destruct Hds as [Hc Hds].
    cbn [append more_groups no_digit_ahead]. rewrite Ha, Hb, Hc, (IH Hds).
    cbn [andb negb]. rewrite Bool.orb_false_r.
    cbn [String.length].
    change (S (S (S (String.length ds)))) with (3 + String.length ds)%nat.
    now rewrite mod3_add3.
Qed.

(** In front of a run of digits that ends the number, [(\d{3})+(?!\d)]
    holds exactly when a comma is due. *)
Lemma groups_of_three_run (rest : string) :
  no_digit_ahead rest = true ->
  forall ds,
    all_digits ds = true ->
    groups_of_three (ds ++ rest) = comma_due (String.length ds).
Proof.
  intros Hrest ds Hds. unfold comma_due.
  destruct ds as [|a [|b [|c ds]]]; cbn [all_digits] in Hds.
  - cbn [append String.length]. destruct rest as [|x [|y [|z r]]];
      cbn [groups_of_three]; try reflexivity.
    cbn [no_digit_ahead] in Hrest. apply Bool.negb_true_iff in Hrest.
    now rewrite Hrest.
  - cbn [append String.length]. destruct rest as [|x [|y r]];
      cbn [groups_of_three]; try reflexivity.
    cbn [no_digit_ahead] in Hrest. apply Bool.negb_true_iff in Hrest.
    rewrite Hrest. now rewrite Bool.andb_false_r.
  - cbn [append String.length]. destruct rest as [|x r];
      cbn [groups_of_three]; try reflexivity.
    cbn [no_digit_ahead] in Hrest. apply Bool.negb_true_iff in Hrest.
    rewrite Hrest. now rewrite !Bool.andb_false_r.
  - apply Bool.andb_true_iff in Hds. destruct Hds as [Ha Hds].
    apply Bool.andb_true_iff in Hds. destruct Hds as [Hb Hds].
    apply Bool.andb_true_iff in Hds. destruct Hds as [Hc Hds].
    cbn [append groups_of_three]. rewrite Ha, Hb, Hc.
    rewrite (more_groups_run rest Hrest ds Hds). cbn [andb String.length].
    change (S (S (S (String.length ds)))) with (3 + String.length ds)%nat.
    now rewrite mod3_add3.
Qed.

Lemma matches_at_run (prev : option ascii) (rest : string) :
  no_digit_ahead rest = true ->
  forall c ds,
    all_digits (String c ds) = true ->
    matches_at prev (String c ds ++ rest)
    = is_word prev && comma_due (String.length (String c ds)).
Proof.
  intros Hrest c ds Hds. unfold matches_at.
  rewrite (groups_of_three_run rest Hrest _ Hds).
  f_equal. unfold non_word_boundary. cbn [append next_char is_word].
  cbn [all_digits] in Hds. apply Bool.andb_true_iff in Hds.
  rewrite (digit_is_word c (proj1 Hds)). now destruct (is_word prev).
Qed.

(** The search through a run of digits that ends the number: a comma in
    front of the run if a word character precedes it and a comma is due,
    the commas of [group_thousands] inside, and the search goes on behind
    the run. *)
Lemma replace_from_run (rest : string) :
  no_digit_ahead rest = true ->
  forall ds c prev,
    all_digits (String c ds) = true ->
    replace_from "," prev (String c ds ++ rest)
    = (if is_word prev && comma_due (String.length (String c ds))
       then "," else "")
      ++ group_thousands (String c ds)
      ++ replace_from "," (Some (last_char ds c)) rest.
Proof.
  intros Hrest ds. induction ds as [|c' ds IH]; intros c prev Hds;
    rewrite replace_from_unfold, (matches_at_run prev rest Hrest c _ Hds).
  - cbn [append group_thousands String.length comma_due last_char].
    reflexivity.
  - assert (Hds' : all_digits (String c' ds) = true).
    { cbn [all_digits] in Hds. now apply Bool.andb_true_iff in Hds. }
    assert (Hc : is_word (Some c) = true).
    { cbn [all_digits] in Hds. apply Bool.andb_true_iff in Hds.
      apply digit_is_word, Hds. }
    f_equal. change (String c (String c' ds) ++ rest)
      with (String c (String c' ds ++ rest)). cbn iota.
    rewrite (IH c' (Some c) Hds'), Hc. cbn [andb].
    cbn [group_thousands last_char append]. f_equal.
    symmetry. apply append_assoc.
Qed.

(** The same search through a possibly empty run. *)
Lemma replace_from_digits (rest : string) (ds : string) (prev : option ascii) :
  no_digit_ahead rest = true ->
  all_digits ds = true ->
  is_word prev = false ->
  exists prev',
    replace_from "," prev (ds ++ rest)
    = group_thousands ds ++ replace_from "," prev' rest.
Proof.
  intros Hrest Hds Hprev. destruct ds as [|c ds].
  - exists prev. reflexivity.
  - exists (Some (last_char ds c)).
    rewrite (replace_from_run rest Hrest ds c prev Hds), Hprev.
    reflexivity.
Qed.

Lemma replace_from_end (prev : option ascii) : replace_from "," prev "" = "".
Proof.
  rewrite replace_from_unfold. unfold matches_at.
  now rewrite Bool.andb_false_r.
Qed.

(** No match in front of a character that is not a digit. *)
Lemma matches_at_non_digit (prev : option ascii) (c : ascii) (s : string) :
  digit c = false -> matches_at prev (String c s) = false.
Proof.
  intros Hc. unfold matches_at.
  destruct s as [|b [|c' s]]; cbn [groups_of_three]; rewrite ?Hc;
    now rewrite Bool.andb_false_r.
Qed.

Lemma append_empty_r (s : string) : s ++ "" = s.
Proof. induction s as [|c s IH]; cbn; [reflexivity|now rewrite IH]. Qed.

Lemma group_thousands_short (s : string) :
  (String.length s <= 3)%nat -> group_thousands s = s.
Proof.
  destruct s as [|a [|b [|c [|d s]]]]; cbn [String.length]; intros H;
    try reflexivity; lia.
Qed.

End DigitRuns.

(** A decimal numeral: sign, digits, point, digits. *)
Lemma numeral_commas (negative : bool) (whole fraction : string) :
  all_digits whole = true ->
  all_digits fraction = true ->
  numberWithCommas
    ((if negative then "-" else "") ++ whole ++ "." ++ fraction)
  = (if negative then "-" else "")
    ++ group_thousands whole ++ "." ++ group_thousands fraction
  /\ ((String.length fraction <= 3)%nat ->
      numberWithCommas
        ((if negative then "-" else "") ++ whole ++ "." ++ fraction)
      = (if negative then "-" else "")
        ++ group_thousands whole ++ "." ++ fraction).
Proof.
  intros Hw Hf.
  assert (Hpoint : forall prev,
             Regex.replace_from "," prev ("." ++ fraction)
             = "." ++ group_thousands fraction).
  { intros prev. cbn [append]. rewrite replace_from_unfold.
    rewrite (matches_at_non_digit prev "." fraction eq_refl). cbn [append].
    destruct (replace_from_digits "" fraction (Some "."%char) eq_refl Hf
                eq_refl) as [prev' H].
    rewrite append_empty_r in H. rewrite H, replace_from_end, append_empty_r.
    reflexivity. }
  assert (Hwhole : forall prev,
             Regex.is_word prev = false ->
             Regex.replace_from "," prev (whole ++ "." ++ fraction)
             = group_thousands whole ++ "." ++ group_thousands fraction).
  { intros prev Hprev.
    destruct (replace_from_digits ("." ++ fraction) whole prev eq_refl Hw
                Hprev) as [prev' H].
    now rewrite H, Hpoint. }
  assert (Hall : numberWithCommas
                   ((if negative then "-" else "") ++ whole ++ "." ++ fraction)
                 = (if negative then "-" else "")
                   ++ group_thousands whole ++ "." ++ group_thousands fraction).
  { unfold numberWithCommas, Regex.replace_all. destruct negative.
    - cbn [append]. rewrite replace_from_unfold.
      rewrite (matches_at_non_digit None "-" _ eq_refl). cbn [append].
      f_equal. apply (Hwhole (Some "-"%char) eq_refl).
    - cbn [append]. apply Hwhole. reflexivity. }
  split; [exact Hall|].
  intros Hlen. rewrite Hall. now rewrite (group_thousands_short fraction Hlen).
Qed.

(** ** How many digits a count has *)

Section DecimalDigits.

Import DecimalFacts.

Local Open Scope N_scope.

Lemma of_lu_little_value (d : Decimal.uint) :
  DecimalPos.Unsigned.of_lu d = little_value (to_list d).
Proof. induction d; cbn [DecimalPos.Unsigned.of_lu to_list little_value digit_value]; lia. Qed.

Lemma little_value_app (a b : list digits) :
  little_value (a ++ b)
  = little_value a + 10 ^ N.of_nat (List.length a) * little_value b.
Proof.
  induction a as [|d a IH]; cbn [List.app little_value List.length].
  - change (N.of_nat 0) with 0. rewrite N.pow_0_r. lia.
  - rewrite IH, Nnat.Nat2N.inj_succ, N.pow_succ_r'.
    rewrite N.mul_add_distr_l, !N.mul_assoc. lia.
Qed.

Lemma little_value_lt (l : list digits) :
  little_value l < 10 ^ N.of_nat (List.length l).
Proof.
  induction l as [|d l IH]; cbn [little_value List.length].
  - change (N.of_nat 0) with 0. rewrite N.pow_0_r. lia.
  - rewrite Nnat.Nat2N.inj_succ, N.pow_succ_r'.
    assert (digit_value d < 10) by (destruct d; cbn; lia). lia.
Qed.

Lemma length_lnzhead (l : list digits) :
  (List.length (lnzhead l) <= List.length l)%nat.
Proof.
  induction l as [|d l IH]; cbn [lnzhead List.length]; [lia|].
  destruct d; cbn [List.length]; lia.
Qed.

(** A normalised numeral other than [0] starts with a digit that is not
    [0]. *)
Lemma lunorm_head (l : list digits) :
  lunorm l = l ->
  l = lzero \/ exists d l', l = cons d l' /\ 1 <= digit_value d.
Proof.
  unfold lunorm. destruct l as [|d l'].
  - cbn. discriminate.
  - destruct d; cbn [lnzhead];
      try (intros _; right; eexists; eexists; split; [reflexivity|cbn; lia]).
    intros H. pose proof (length_lnzhead l') as Hlen.
    destruct (lnzhead l') as [|x r] eqn:Hnz.
    + now left.
    + exfalso. apply (f_equal (@List.length _)) in H.
      cbn [List.length] in H, Hlen. lia.
Qed.

(** The number of digits of [N.to_uint n] is the number of decimal digits of
    [n]. *)
Lemma to_uint_bounds (n : N) :
  0 < n ->
  10 ^ N.of_nat (Decimal.nb_digits (N.to_uint n) - 1) <= n
  /\ n < 10 ^ N.of_nat (Decimal.nb_digits (N.to_uint n)).
Proof.
  intros Hn.
  pose proof (DecimalN.Unsigned.of_to n) as Hof.
  pose proof (DecimalN.Unsigned.to_of (N.to_uint n)) as Hnorm.
  rewrite Hof in Hnorm.
  unfold N.of_uint in Hof. rewrite DecimalPos.Unsigned.of_uint_alt in Hof.
  rewrite of_lu_little_value, rev_spec in Hof.
  apply (f_equal to_list) in Hnorm. rewrite unorm_spec in Hnorm.
  rewrite nb_digits_spec.
  destruct (lunorm_head _ (eq_sym Hnorm)) as [Hz|(d & l' & Hl & Hd)].
  - rewrite Hz in Hof. cbn in Hof. lia.
  - rewrite Hl in Hof |- *. cbn [List.rev List.length] in Hof |- *.
    rewrite little_value_app in Hof. cbn [little_value] in Hof.
    rewrite List.length_rev in Hof.
    pose proof (little_value_lt (List.rev l')) as Hlt.
    rewrite List.length_rev in Hlt.
    replace (S (List.length l') - 1)%nat with (List.length l') by lia.
    rewrite Nnat.Nat2N.inj_succ, N.pow_succ_r'.
    assert (digit_value d < 10) by (destruct d; cbn; lia).
    nia.
Qed.

End DecimalDigits.

Section CountDigits.

Import JSString.

Lemma string_of_uint_digits (d : Decimal.uint) :
  all_digits (NilEmpty.string_of_uint d) = true
  /\ String.length (NilEmpty.string_of_uint d) = Decimal.nb_digits d.
Proof.
  induction d as [|d [IH1 IH2]|d [IH1 IH2]|d [IH1 IH2]|d [IH1 IH2]
                 |d [IH1 IH2]|d [IH1 IH2]|d [IH1 IH2]|d [IH1 IH2]
                 |d [IH1 IH2]|d [IH1 IH2]];
    cbn [NilEmpty.string_of_uint all_digits String.length Decimal.nb_digits];
    split; try reflexivity; try (rewrite IH1; reflexivity);
    rewrite IH2; reflexivity.
Qed.

Lemma to_uint_not_nil (n : N) : N.to_uint n <> Decimal.Nil.
Proof.
  destruct n as [|p]; cbn; [discriminate|].
  apply DecimalPos.Unsigned.to_uint_nonnil.
Qed.

(** The decimal representation of a count is made of digits, at least
    one. *)
Lemma digits_of_Z_digits (z : Z) :
  all_digits (digits_of_Z z) = true
  /\ String.length (digits_of_Z z)
     = Decimal.nb_digits (N.to_uint (Z.to_N z))
  /\ (1 <= String.length (digits_of_Z z))%nat.
Proof.
  unfold digits_of_Z, NilZero.string_of_uint.
  pose proof (to_uint_not_nil (Z.to_N z)) as Hnil.
  destruct (string_of_uint_digits (N.to_uint (Z.to_N z))) as [Hd Hl].
  destruct (N.to_uint (Z.to_N z)) as [| | | | | | | | | | ] eqn:Hu;
    try congruence; repeat split; try exact Hd; try exact Hl;
    rewrite Hl; cbn [Decimal.nb_digits]; lia.
Qed.

(** It has as many digits as the count has decimal digits. *)
Lemma digits_of_Z_length (z : Z) :
  0 < z ->
  10 ^ Z.of_nat (String.length (digits_of_Z z) - 1) <= z
  /\ z < 10 ^ Z.of_nat (String.length (digits_of_Z z)).
Proof.
  intros Hz. destruct (digits_of_Z_digits z) as (_ & Hlen & _).
  rewrite Hlen.
  destruct (to_uint_bounds (Z.to_N z)) as [Hlo Hhi]; [lia|].
  split.
  - apply N2Z.inj_le in Hlo. rewrite N2Z.inj_pow, Z2N.id in Hlo by lia.
    rewrite nat_N_Z in Hlo. exact Hlo.
  - apply N2Z.inj_lt in Hhi. rewrite N2Z.inj_pow, Z2N.id in Hhi by lia.
    rewrite nat_N_Z in Hhi. exact Hhi.
Qed.

End CountDigits.

(** ** The tokens of the status line *)

Section Tokens.

Import JSString JSNumberOps.

Lemma all_digits_append (a b : string) :
  all_digits (a ++ b) = all_digits a && all_digits b.
Proof.
  induction a as [|c a IH]; cbn [append all_digits]; [reflexivity|].
  now rewrite IH, Bool.andb_assoc.
Qed.

Lemma all_digits_zeros (n : nat) : all_digits (repeat_char "0" n) = true.
Proof. induction n as [|n IH]; cbn; [reflexivity|exact IH]. Qed.

Lemma all_digits_padStart (t : nat) (s : string) :
  all_digits s = true -> all_digits (padStart t "0" s) = true.
Proof.
  intros Hs. unfold padStart. now rewrite all_digits_append, all_digits_zeros.
Qed.

Lemma all_digits_substring (s : string) :
  all_digits s = true ->
  forall a b, all_digits (substring a b s) = true.
Proof.
  induction s as [|c s IH]; intros Hs a b.
  - destruct a, b; reflexivity.
  - cbn [all_digits] in Hs. apply Bool.andb_true_iff in Hs.
    destruct Hs as [Hc Hs]. destruct a as [|a]; cbn [substring].
    + destruct b as [|b]; cbn [all_digits]; [reflexivity|].
      rewrite Hc. apply (IH Hs 0%nat b).
    + apply (IH Hs).
Qed.

Lemma length_padStart_exact (t : nat) (c : ascii) (s : string) :
  String.length (padStart t c s) = Nat.max t (String.length s).
Proof. unfold padStart. rewrite length_append, length_repeat_char. lia. Qed.

(** What [toFixed(3)] prints in fixed notation, after the sign: digits, at
    least one, a point, three digits. *)
Lemma fixed_digits_numeral (n : Z) :
  exists whole fraction,
    all_digits whole = true
    /\ (1 <= String.length whole)%nat
    /\ all_digits fraction = true
    /\ String.length fraction = 3%nat
    /\ fixed_digits 3 n = whole ++ "." ++ fraction.
Proof.
  unfold fixed_digits. cbn [Nat.add].
  pose proof (length_padStart 4 "0" (digits_of_Z n)) as Hlen.
  pose proof (all_digits_padStart 4 _ (proj1 (digits_of_Z_digits n))) as Hd.
  set (m := padStart 4 "0" (digits_of_Z n)) in *.
  exists (substring 0 (String.length m - 3) m),
    (substring (String.length m - 3) 3 m).
  repeat split.
  - now apply all_digits_substring.
  - rewrite length_substring; lia.
  - now apply all_digits_substring.
  - apply length_substring. lia.
Qed.

(** What [toFixed(3)] prints for a number in the fixed range. *)
Lemma toFixed_numeral (x : number) :
  in_fixed_range x = true ->
  exists (negative : bool) (whole fraction : string),
    all_digits whole = true
    /\ (1 <= String.length whole)%nat
    /\ all_digits fraction = true
    /\ String.length fraction = 3%nat
    /\ toFixed x 3
       = (if negative then "-" else "") ++ whole ++ "." ++ fraction.
Proof.
  unfold in_fixed_range, toFixed.
  destruct (Prim2SF x) as [s| | |s m e]; try discriminate.
  - intros _. destruct (fixed_digits_numeral 0) as (w & f & H).
    exists false, w, f. exact H.
  - destruct e as [|p|p]; intros Hr; apply Bool.negb_true_iff in Hr;
      rewrite Hr;
      match goal with
      | |- context [fixed_digits 3 ?n] =>
          destruct (fixed_digits_numeral n)
            as (w & f & Hw & Hwl & Hf & Hfl & ->)
      end;
      exists s, w, f; repeat split; assumption.
Qed.

Lemma length_10 (s : string) :
  String.length s = 10%nat ->
  exists a b c d,
    String.length a = 1%nat /\ String.length b = 3%nat
    /\ String.length c = 3%nat /\ String.length d = 3%nat
    /\ s = a ++ b ++ c ++ d
    /\ group_thousands s = a ++ "," ++ b ++ "," ++ c ++ "," ++ d.
Proof.
  intros H.
  destruct s as [|c0 [|c1 [|c2 [|c3 [|c4 [|c5 [|c6 [|c7 [|c8 [|c9 [|x s]]]]]]]]]]];
    try discriminate H.
  exists (String c0 ""), (String c1 (String c2 (String c3 ""))),
    (String c4 (String c5 (String c6 ""))),
    (String c7 (String c8 (String c9 ""))).
  repeat split.
Qed.

End Tokens.

(** ** Runs of the loop *)

Section Runs.

Variable host : Host.
Variables privateKey publicKey : bytes.

(** A run that is still looping after [S k] passes was still looping after
    [k]. *)
Lemma still_looping_before (k : nat) (st : Averages) (w : World)
  (st2 : Averages) (w2 : World) :
  while_looping host (S k) privateKey publicKey st w
  = (Normal (StillLooping st2), w2) ->
  exists st1 w1,
    while_looping host k privateKey publicKey st w
    = (Normal (StillLooping st1), w1).
Proof.
  replace (S k) with (k + 1)%nat by lia. rewrite loop_add.
  destruct (while_looping host k privateKey publicKey st w)
    as [[[st1|st1]|e] w1]; try discriminate.
  intros _. exists st1, w1. reflexivity.
Qed.

(** What a run writes to the console: nothing, or the one line of the
    failed verification when it leaves the loop. *)
Lemma loop_console (k : nat) :
  forall st w r w',
    while_looping host k privateKey publicKey st w = (r, w') ->
    console_errors w'
    = (console_errors w
       ++ match r with
          | Normal (Exited _) => ["Failed to Verify"]
          | _ => []
          end)%list.
Proof.
  induction k as [|k IH]; intros st w r w'.
  - cbn. intros [= <- <-]. now rewrite app_nil_r.
  - first_pass host privateKey publicKey k st w.
    + intros [= <- <-]. now rewrite app_nil_r.
    + intros Hrun.
      apply IH in Hrun. cbn [after_pass console_errors] in Hrun.
      now rewrite app_nil_r in Hrun.
    + intros [= <- <-]. reflexivity.
    + intros [= <- <-]. now rewrite app_nil_r.
Qed.

(** The pass in which a library call rejects. *)
Lemma loop_rejection (more : nat) (st : Averages) (w : World)
  (e : Error) (reads : nat) :
  pass_rejection host privateKey publicKey w = Some (e, reads) ->
  while_looping host (S more) privateKey publicKey st w
  = (Throw e,
     {| clock_reads := reads + clock_reads w;
        random_draws := S (random_draws w);
        posted := posted w;
        console_errors := console_errors w |}).
Proof.
  unfold pass_rejection. cbn [while_looping].
  unfold bind at 1.
  unfold iteration, timeBlock, DataGenerator_generateBytes,
    Ed25519Wrapper_hashData, Ed25519Wrapper_sign, Ed25519Wrapper_verify,
    time, call, bind, ret.
  cbn [fst snd clock_reads random_draws posted console_errors].
  destruct (crypto_randomBytes host (random_draws w) 2048) as [data|e1];
    [|intros [= <- <-]; reflexivity].
  destruct (crypto_sha512 host data) as [dataHash|e1];
    [|intros [= <- <-]; reflexivity].
  destruct (ed25519_sign host dataHash privateKey) as [signature|e1];
    [|intros [= <- <-]; reflexivity].
  destruct (ed25519_verify host signature dataHash publicKey) as [b|e1];
    [discriminate|intros [= <- <-]; reflexivity].
Qed.

(** The lines [k] verified passes post, counted from a fresh counter, and
    what the passes use up. *)
Lemma verified_run (k : nat) :
  forall w st w',
    Z.of_nat k <= 2 ^ 53 ->
    while_looping host k privateKey publicKey initial_averages w
    = (Normal (StillLooping st), w') ->
    totalSamples st = Z.of_nat k
    /\ clock_reads w' = (8 * k + clock_reads w)%nat
    /\ random_draws w' = (k + random_draws w)%nat
    /\ console_errors w' = console_errors w
    /\ exists sts,
         posted w' = (posted w ++ map status_line sts)%list
         /\ map totalSamples sts
            = map (fun j => 100 * Z.of_nat (S j)) (seq 0 (k / 100)).
Proof.
  induction k as [|k IH]; intros w st w' Hk Hrun.
  - cbn in Hrun. injection Hrun as <- <-. repeat split.
    exists []. cbn. now rewrite app_nil_r.
  - destruct (still_looping_before k _ _ _ _ Hrun) as (st1 & w1 & Hprev).
    destruct (loop_last_pass _ _ _ k _ _ _ _ _ _ Hprev Hrun)
      as (_ & Hst & Hw).
    destruct (IH w st1 w1 ltac:(lia) Hprev)
      as (Ht & Hc & Hd & He & sts & Hp & Hcounts).
    assert (Hcount : totalSamples st = Z.of_nat (S k)).
    { rewrite Hst. cbn [record_pass record_samples totalSamples].
      rewrite Ht. unfold plus_one.
      destruct (Z.ltb_spec (Z.of_nat k) (2 ^ 53)); lia. }
    rewrite Hw. cbn [after_pass clock_reads random_draws console_errors posted].
    rewrite Hc, Hd, He, app_nil_r, Hcount.
    repeat split; try lia.
    pose proof (Nat.div_mod_eq (S k) 100) as E1.
    pose proof (Nat.div_mod_eq k 100) as E2.
    pose proof (Nat.mod_upper_bound (S k) 100 ltac:(lia)) as B1.
    pose proof (Nat.mod_upper_bound k 100 ltac:(lia)) as B2.
    destruct (Z.eqb_spec (Z.of_nat (S k) mod 100) 0) as [Hz|Hz].
    + assert (Hm : (S k mod 100 = 0)%nat).
      { apply Nat2Z.inj. rewrite Nat2Z.inj_mod. exact Hz. }
      exists (sts ++ [st])%list.
      replace (S k / 100)%nat with (S (k / 100)) by lia.
      rewrite seq_S, !map_app, Hp, Hcounts, <- app_assoc.
      cbn [map Nat.add]. split; [reflexivity|].
      f_equal. f_equal. lia.
    + assert (Hm : (S k mod 100 <> 0)%nat).
      { intros Hm. apply Hz. change 100 with (Z.of_nat 100).
        rewrite <- Nat2Z.inj_mod, Hm. reflexivity. }
      exists sts. replace (S k / 100)%nat with (k / 100)%nat by lia.
      rewrite app_nil_r. split; assumption.
Qed.

End Runs.

Section Outcomes.

Variable host : Host.

(** [main] when the setup succeeds. *)
Lemma main_after_setup (passes : nat) (args : list string) (w : World)
  (privateKey publicKey : bytes) :
  ed25519_randomPrivateKey host = Normal privateKey ->
  ed25519_getPublicKey host privateKey = Normal publicKey ->
  main host passes args w =
  match while_looping host passes privateKey publicKey initial_averages w with
  | (Normal (Exited _), w') => (Normal (Some 0), w')
  | (Normal (StillLooping _), w') => (Normal None, w')
  | (Throw e, w') => (Throw e, w')
  end.
Proof. intros Hsk Hpk. now rewrite main_unfold, Hsk, Hpk. Qed.

(** What [main] writes to the console. *)
Lemma main_console (passes : nat) (args : list string) (w : World)
  (r : Completion (option Z)) (w' : World) :
  main host passes args w = (r, w') ->
  console_errors w'
  = (console_errors w
     ++ match r with
        | Normal (Some _) => ["Failed to Verify"]
        | _ => []
        end)%list.
Proof.
  rewrite main_unfold.
  destruct (ed25519_randomPrivateKey host) as [privateKey|e];
    [|intros [= <- <-]; now rewrite app_nil_r].
  destruct (ed25519_getPublicKey host privateKey) as [publicKey|e];
    [|intros [= <- <-]; now rewrite app_nil_r].
  destruct (while_looping host passes privateKey publicKey initial_averages w)
    as [[[st|st]|e] w1] eqn:Hrun; intros [= <- <-];
    apply (loop_console _ _ _ _ _ _ _ _ Hrun).
Qed.

(** With all durations zero the averages stay zero and every line says
    so. *)
Lemma idle_run (privateKey publicKey : bytes) (k : nat) :
  (forall t, measured host t = 0%float) ->
  forall st w r w',
    idle_averages st ->
    while_looping host k privateKey publicKey st w = (r, w') ->
    (forall st', r = Normal (StillLooping st') -> idle_averages st')
    /\ exists new,
         posted w' = (posted w ++ new)%list /\ Forall idle_line new.
Proof.
  intros Hidle. induction k as [|k IH]; intros st w r w' Hst.
  - cbn. intros [= <- <-]. split.
    + intros st' [= <-]. exact Hst.
    + exists []. now rewrite app_nil_r.
  - assert (Hnext : idle_averages (record_pass host st (clock_reads w))).
    { destruct Hst as (Hg & Hh & Hs & Hv).
      unfold idle_averages, record_pass, record_samples.
      cbn [generateDataAverage hashDataAverage signDataAverage verifyAverage].
      rewrite !Hidle, Hg, Hh, Hs, Hv. repeat split. }
    first_pass host privateKey publicKey k st w.
    + intros [= <- <-]. split.
      * discriminate.
      * exists []. rewrite app_nil_r. split; [exact Hp|constructor].
    + intros Hrun.
      destruct (IH _ _ _ _ Hnext Hrun) as (Hfinal & new & Hp' & Hnew).
      split; [exact Hfinal|].
      cbn [after_pass posted] in Hp'. eexists.
      rewrite Hp', <- app_assoc. split; [reflexivity|].
      apply Forall_app. split; [|exact Hnew].
      destruct (_ mod 100 =? 0); constructor; [|constructor].
      destruct Hnext as (Hg & Hh & Hs & Hv').
      exists (totalSamples (record_pass host st (clock_reads w))).
      unfold status_line. rewrite Hg, Hh, Hs, Hv'. reflexivity.
    + intros [= <- <-]. split.
      * discriminate.
      * exists []. split; [reflexivity|constructor].
    + intros [= <- <-]. split.
      * discriminate.
      * exists []. rewrite app_nil_r. split; [exact Hp|constructor].
Qed.

End Outcomes.

(** ** How a run ends *)

Section Exits.

Variable host : Host.
Variables privateKey publicKey : bytes.

Local Notation "'loop' passes" :=
  (while_looping host passes privateKey publicKey)
  (at level 10, passes at level 9, only parsing).
Local Notation "'outcome'" :=
  (verify_outcome host privateKey publicKey) (only parsing).

(** A library call of a pass rejects exactly when [verify] gives no
    answer. *)
Lemma rejection_outcome (w : World) :
  outcome w = None
  <-> exists e reads,
        pass_rejection host privateKey publicKey w = Some (e, reads).
Proof.
  unfold verify_outcome, pass_rejection.
  destruct (crypto_randomBytes host (random_draws w) 2048) as [data|e1];
    [|split; eauto].
  destruct (crypto_sha512 host data) as [dataHash|e1]; [|split; eauto].
  destruct (ed25519_sign host dataHash privateKey) as [signature|e1];
    [|split; eauto].
  destruct (ed25519_verify host signature dataHash publicKey) as [b|e1];
    [|split; eauto].
  split; [discriminate|]. intros (e & reads & H). discriminate H.
Qed.

(** A run that is still looping after [k] passes goes on from there. *)
Lemma loop_from (k passes : nat) (st : Averages) (w : World)
  (st1 : Averages) (w1 : World) :
  (k < passes)%nat ->
  loop k st w = (Normal (StillLooping st1), w1) ->
  loop passes st w = loop (S (passes - S k)) st1 w1.
Proof.
  intros Hk Hrun.
  replace passes with (k + S (passes - S k))%nat at 1 by lia.
  now rewrite loop_add, Hrun.
Qed.

(** A run that is still looping after [k + m] passes was still looping
    after [k]. *)
Lemma still_looping_prefix (k m : nat) (st : Averages) (w : World)
  (st2 : Averages) (w2 : World) :
  loop (k + m) st w = (Normal (StillLooping st2), w2) ->
  exists st1 w1, loop k st w = (Normal (StillLooping st1), w1).
Proof.
  rewrite loop_add.
  destruct (loop k st w) as [[[st1|st1]|e] w1]; try discriminate.
  intros _. exists st1, w1. reflexivity.
Qed.

(** Either all passes verified, or there is a first pass that did not go
    through: it failed to verify and the loop exited, or it ended in an
    error. *)
Lemma loop_outcome (passes : nat) (st : Averages) (w : World) :
  (exists st' w', loop passes st w = (Normal (StillLooping st'), w'))
  \/ exists (k : nat) (st1 : Averages) (w1 : World),
       (k < passes)%nat
       /\ loop k st w = (Normal (StillLooping st1), w1)
       /\ ((outcome w1 = Some false
            /\ exists w', loop passes st w = (Normal (Exited st1), w'))
           \/ ((outcome w1 = None
                \/ (outcome w1 = Some true
                    /\ post_fails host (record_pass host st1 (clock_reads w1))
                       = true))
               /\ exists e w', loop passes st w = (Throw e, w'))).
Proof.
  induction passes as [|p IH].
  - left. exists st, w. reflexivity.
  - replace (S p) with (p + 1)%nat by lia. rewrite loop_add.
    destruct IH as [(st' & w' & Hp)|(k & st1 & w1 & Hk & Hrun & Hend)].
    + rewrite Hp.
      destruct (outcome w') as [[|]|] eqn:Hv;
        [destruct (post_fails host (record_pass host st' (clock_reads w')))
           eqn:Hpost|..].
      * right. exists p, st', w'. split; [lia|]. split; [exact Hp|].
        right. split; [right; now split|].
        rewrite (loop_unposted _ _ _ 0 st' w' Hv Hpost). eauto.
      * left. rewrite (loop_verified _ _ _ 0 st' w' Hv Hpost).
        cbn [while_looping]. unfold ret. eauto.
      * right. exists p, st', w'. split; [lia|]. split; [exact Hp|].
        left. split; [exact Hv|].
        rewrite (loop_failed _ _ _ 0 st' w' Hv). eauto.
      * right. exists p, st', w'. split; [lia|]. split; [exact Hp|].
        right. split; [now left|].
        destruct (loop_thrown _ _ _ st' w' (or_introl Hv))
          as (e & w2 & Hr & _ & _).
        rewrite (Hr 0%nat). eauto.
    + right. exists k, st1, w1. split; [lia|]. split; [exact Hrun|].
      destruct Hend as [[Hv (w' & Hex)]|[Hc (e & w' & Hth)]].
      * left. split; [exact Hv|]. rewrite Hex. eauto.
      * right. split; [exact Hc|]. rewrite Hth. eauto.
Qed.

(** Where the global object has no [postMessage] nothing is ever posted. *)
Lemma loop_without_postMessage (k : nat) :
  global_postMessage host = false ->
  forall st w r w', loop k st w = (r, w') -> posted w' = posted w.
Proof.
  intros Hscope. induction k as [|k IH]; intros st w r w'.
  - cbn. now intros [= <- <-].
  - first_pass host privateKey publicKey k st w.
    + now intros [= <- <-].
    + intros Hrun. apply IH in Hrun. rewrite Hrun.
      unfold post_fails in Hpost. rewrite Hscope, Bool.andb_true_r in Hpost.
      rewrite Hpost. cbn. apply app_nil_r.
    + intros [= <- <-]. cbn. apply app_nil_r.
    + now intros [= <- <-].
Qed.

(** There the run from the start is over by pass 100. *)
Lemma loop_without_postMessage_ends (passes : nat) (w : World)
  (st : Averages) (w' : World) :
  global_postMessage host = false ->
  loop passes initial_averages w = (Normal (StillLooping st), w') ->
  (passes < 100)%nat.
Proof.
  intros Hscope Hrun.
  destruct (Nat.lt_ge_cases passes 100) as [Hlt|Hge]; [exact Hlt|exfalso].
  replace passes with (99 + S (passes - 100))%nat in Hrun by lia.
  rewrite loop_add in Hrun.
  destruct (loop 99 initial_averages w) as [[[st1|st1]|e] w1] eqn:Hprev;
    try discriminate Hrun.
  pose proof (still_looping _ _ _ 99 _ _ _ _ Hprev) as (_ & _ & _ & _ & Ht & _).
  assert (Hdue : post_fails host (record_pass host st1 (clock_reads w1))
                 = true).
  { unfold post_fails.
    cbn [record_pass record_samples totalSamples]. rewrite Ht, Hscope.
    reflexivity. }
  destruct (outcome w1) as [[|]|] eqn:Hv.
  - rewrite (loop_unposted _ _ _ _ st1 w1 Hv Hdue) in Hrun. discriminate Hrun.
  - rewrite (loop_failed _ _ _ _ st1 w1 Hv) in Hrun. discriminate Hrun.
  - destruct (loop_thrown _ _ _ st1 w1 (or_introl Hv))
      as (e & w2 & Hr & _ & _).
    rewrite Hr in Hrun. discriminate Hrun.
Qed.

End Exits.

Section ExitCodes.

Variable host : Host.

(** The exit code of the standalone process, read off the run of the
    loop. *)
Lemma standalone_exit_code (passes : nat) (args : list string) (w : World)
  (privateKey publicKey : bytes) :
  ed25519_randomPrivateKey host = Normal privateKey ->
  ed25519_getPublicKey host privateKey = Normal publicKey ->
  fst (bootstrap host true passes args w)
  = match fst (while_looping host passes privateKey publicKey
                 initial_averages w) with
    | Normal (Exited _) => Some 0
    | Normal (StillLooping _) => None
    | Throw _ => Some 1
    end.
Proof.
  intros Hsk Hpk. unfold bootstrap.
  rewrite (main_after_setup host passes args w _ _ Hsk Hpk).
  destruct (while_looping host passes privateKey publicKey initial_averages w)
    as [[[st|st]|e] w1]; reflexivity.
Qed.

Lemma fatal_error_exit_code (passes : nat) (args : list string) (w : World) :
  fatal_error host passes w ->
  fst (bootstrap host true passes args w) = Some 1.
Proof.
  intros [(e & Hsk)|[(privateKey & e & Hsk & Hpk)
                    |(privateKey & publicKey & k & st & w1
                      & Hsk & Hpk & Hk & Hrun & Hend)]].
  - unfold bootstrap. now rewrite main_unfold, Hsk.
  - unfold bootstrap. now rewrite main_unfold, Hsk, Hpk.
  - rewrite (standalone_exit_code passes args w _ _ Hsk Hpk).
    rewrite (loop_from _ _ _ k passes _ _ _ _ Hk Hrun).
    assert (Hthrown : verify_outcome host privateKey publicKey w1 = None
                      \/ (verify_outcome host privateKey publicKey w1
                          = Some true
                          /\ post_fails host
                               (record_pass host st (clock_reads w1))
                             = true)).
    { destruct Hend as [Hrej|Hpost]; [left|now right].
      now apply rejection_outcome. }
    destruct (loop_thrown _ _ _ st w1 Hthrown) as (e & w2 & Hr & _ & _).
    now rewrite Hr.
Qed.

Lemma failed_verification_exit_code (passes : nat) (args : list string)
  (w : World) :
  failed_verification host passes w ->
  fst (bootstrap host true passes args w) = Some 0.
Proof.
  intros (privateKey & publicKey & k & st & w1 & Hsk & Hpk & Hk & Hrun & Hv).
  rewrite (standalone_exit_code passes args w _ _ Hsk Hpk).
  rewrite (loop_from _ _ _ k passes _ _ _ _ Hk Hrun).
  now rewrite (loop_failed _ _ _ _ st w1 Hv).
Qed.

Lemma still_running_exit_code (passes : nat) (args : list string)
  (w : World) :
  still_running host passes w ->
  fst (bootstrap host true passes args w) = None.
Proof.
  intros (privateKey & publicKey & st & w1 & Hsk & Hpk & Hrun).
  rewrite (standalone_exit_code passes args w _ _ Hsk Hpk).
  now rewrite Hrun.
Qed.

(** One of the three is the case. *)
Lemma run_cases (passes : nat) (w : World) :
  fatal_error host passes w
  \/ failed_verification host passes w
  \/ still_running host passes w.
Proof.
  destruct (ed25519_randomPrivateKey host) as [privateKey|e] eqn:Hsk;
    [|left; left; unfold fatal_error; eauto].
  destruct (ed25519_getPublicKey host privateKey) as [publicKey|e] eqn:Hpk;
    [|left; unfold fatal_error; right; left; eauto].
  destruct (loop_outcome host privateKey publicKey passes initial_averages w)
    as [(st' & w' & Hrun)|(k & st1 & w1 & Hk & Hrun & Hend)].
  - right. right. exists privateKey, publicKey, st', w'. now repeat split.
  - destruct Hend as [[Hv _]|[Hc _]].
    + right. left. exists privateKey, publicKey, k, st1, w1.
      now repeat split.
    + left. unfold fatal_error. right. right.
      exists privateKey, publicKey, k, st1, w1.
      repeat (split; [assumption|]).
      destruct Hc as [Hv|Hpost]; [left|now right].
      now apply rejection_outcome.
Qed.

(** What the standalone process has written to the console. *)
Lemma standalone_console (passes : nat) (args : list string) (w : World) :
  match fst (bootstrap host true passes args w) with
  | None =>
      console_errors (snd (bootstrap host true passes args w))
      = console_errors w
  | Some code =>
      if code =? 0 then
        console_errors (snd (bootstrap host true passes args w))
        = (console_errors w ++ ["Failed to Verify"])%list
      else
        exists e,
          console_errors (snd (bootstrap host true passes args w))
          = (console_errors w ++ [("Fatal " ++ e)%string])%list
  end.
Proof.
  unfold bootstrap.
  destruct (main host passes args w) as [[[code|]|e] w1] eqn:Hmain;
    cbn [fst snd console_error console_errors];
    pose proof (main_console host passes args w _ _ Hmain) as Hc.
  - destruct (main_returned host passes args w code w1 Hmain) as [-> _].
    exact Hc.
  - now rewrite app_nil_r in Hc.
  - exists e. rewrite app_nil_r in Hc. now rewrite Hc.
Qed.

End ExitCodes.

(** ** The page *)

Section PageScript.

Import Page.

Lemma on_message_prepends (data : string) (children : list Node) :
  on_message data children = TextNode (data ++ newline) :: children.
Proof. destruct children; reflexivity. Qed.

Lemma message_events_listening (messages : list string) :
  forall children n,
    message_events
      {| pre := Some children; workers := n; listening := true |} messages
    = {| pre :=
           Some (rev (map (fun m => TextNode (m ++ newline)) messages)
                 ++ children)%list;
         workers := n; listening := true |}.
Proof.
  induction messages as [|m messages IH]; intros children n; [reflexivity|].
  cbn [message_events fold_left message_event listening pre workers].
  rewrite on_message_prepends.
  change (fold_left message_event messages ?p) with (message_events p messages).
  rewrite IH. cbn [map rev]. now rewrite <- app_assoc.
Qed.

Lemma message_events_deaf (messages : list string) :
  forall page,
    listening page = false \/ pre page = None ->
    message_events page messages = page.
Proof.
  induction messages as [|m messages IH]; intros page Hpage; [reflexivity|].
  cbn [message_events fold_left].
  assert (Hsame : message_event page m = page).
  { unfold message_event. destruct Hpage as [-> | ->]; [reflexivity|].
    now destruct (listening page). }
  rewrite Hsame. now apply IH.
Qed.

Lemma concat_cons (x : string) (l : list string) :
  String.concat "" (x :: l) = x ++ String.concat "" l.
Proof.
  destruct l as [|y l]; cbn [String.concat append]; [|reflexivity].
  symmetry. apply append_empty_r.
Qed.

Lemma concat_app (a b : list string) :
  String.concat "" (a ++ b) = String.concat "" a ++ String.concat "" b.
Proof.
  induction a as [|x a IH]; [reflexivity|].
  change ((x :: a) ++ b)%list with (x :: (a ++ b))%list.
  now rewrite !concat_cons, IH, append_assoc.
Qed.

(** Counting down instead of reversing. *)
Lemma rev_map_seq {A : Type} (f : nat -> A) (m : nat) :
  rev (map f (seq 0 m)) = map (fun i => f (m - S i)%nat) (seq 0 m).
Proof.
  induction m as [|m IH]; [reflexivity|].
  transitivity (f m :: map (fun i => f (m - S i)%nat) (seq 0 m)).
  - rewrite seq_S, map_app, rev_app_distr, IH. reflexivity.
  - cbn [seq map]. rewrite <- seq_shift, map_map.
    cbn [Nat.sub]. now rewrite Nat.sub_0_r.
Qed.

End PageScript.

Section Passthrough.

Import Regex.

Lemma replace_from_no_digits (s : string) :
  no_digits s = true ->
  forall prev, replace_from "," prev s = s.
Proof.
  induction s as [|c s IH]; intros Hs prev.
  - apply replace_from_end.
  - cbn [no_digits] in Hs. apply Bool.andb_true_iff in Hs.
    destruct Hs as [Hc Hs]. apply Bool.negb_true_iff in Hc.
    rewrite replace_from_unfold, (matches_at_non_digit prev c s Hc).
    cbn [append]. now rewrite IH.
Qed.

End Passthrough.

Section CounterLimit.

Variable host : Host.
Variables privateKey publicKey : bytes.

Lemma loop_at_limit (k : nat) :
  forall st w r w',
    totalSamples st = 2 ^ 53 ->
    while_looping host k privateKey publicKey st w = (r, w') ->
    posted w' = posted w
    /\ (counter_of r = Some (2 ^ 53) \/ counter_of r = None).
Proof.
  induction k as [|k IH]; intros st w r w' Hst.
  - cbn. intros [= <- <-]. split; [reflexivity|]. left. cbn. now rewrite Hst.
  - assert (Hnext : totalSamples (record_pass host st (clock_reads w))
                    = 2 ^ 53).
    { cbn [record_pass record_samples totalSamples]. now rewrite Hst. }
    first_pass host privateKey publicKey k st w.
    + intros [= <- <-]. split; [exact Hp|now right].
    + rewrite Hnext. change (2 ^ 53 mod 100 =? 0) with false.
      intros Hrun. destruct (IH _ _ _ _ Hnext Hrun) as [Hp' Hc'].
      cbn [after_pass posted] in Hp'. rewrite app_nil_r in Hp'.
      split; assumption.
    + intros [= <- <-].
      cbn [after_pass posted counter_of]. rewrite app_nil_r, Hst.
      split; [reflexivity|now left].
    + intros [= <- <-]. split; [exact Hp|now right].
Qed.


End CounterLimit.

(** ** The lines of a run *)

Section Lines.






Variable host : Host.
Variables privateKey publicKey : bytes.



End Lines.

(** ** The model at work

    Values the engine is known to give, recomputed by the definitions. *)

Example numberWithCommas_examples :
  numberWithCommas "0000000100" = "0,000,000,100"
  /\ numberWithCommas "1234567.891" = "1,234,567.891"
  /\ numberWithCommas "-1234.567" = "-1,234.567"
  /\ numberWithCommas "999.000" = "999.000"
  /\ numberWithCommas "0.1234" = "0.1,234"
  /\ numberWithCommas "1e+21" = "1e+21"
  /\ numberWithCommas "NaN" = "NaN".
Proof. repeat split; vm_compute; reflexivity. Qed.

Example toFixed_examples :
  JSNumberOps.toFixed 0%float 3 = "0.000"
  /\ JSNumberOps.toFixed (-0)%float 3 = "0.000"
  /\ JSNumberOps.toFixed 0.0625%float 3 = "0.063"
  /\ JSNumberOps.toFixed 1234567.875%float 3 = "1234567.875"
  /\ JSNumberOps.toFixed 2.5%float 0 = "3"
  /\ JSNumberOps.toFixed (-2.5)%float 0 = "-3"
  /\ JSNumberOps.toFixed 0x1.0147ae147ae14p+0%float 2 = "1.00"
  /\ JSNumberOps.toFixed (JSNumberOps.of_Z (10 ^ 20)) 3
     = "100000000000000000000.000"
  /\ JSNumberOps.toFixed (JSNumberOps.of_Z (10 ^ 21)) 3 = "1e+21"
  /\ JSNumberOps.toFixed (JSNumberOps.of_Z (2 ^ 70)) 3
     = "1.1805916207174113e+21"
  /\ JSNumberOps.toFixed nan 3 = "NaN"
  /\ JSNumberOps.toFixed neg_infinity 3 = "-Infinity".
Proof. repeat split; vm_compute; reflexivity. Qed.

(** [plus_one] is the addition of the engine on the counter, also where the
    counter stops counting. *)
Example plus_one_examples :
  JSNumberOps.of_Z (plus_one 0) = (JSNumberOps.of_Z 0 + 1)%float
  /\ JSNumberOps.of_Z (plus_one 99) = (JSNumberOps.of_Z 99 + 1)%float
  /\ JSNumberOps.of_Z (plus_one (2 ^ 53 - 1))
     = (JSNumberOps.of_Z (2 ^ 53 - 1) + 1)%float
  /\ JSNumberOps.of_Z (plus_one (2 ^ 53))
     = (JSNumberOps.of_Z (2 ^ 53) + 1)%float
  /\ plus_one (2 ^ 53) = 2 ^ 53.
Proof. repeat split; vm_compute; reflexivity. Qed.

(** Rounding in [approxRollingAverage]: the result can fall below both the
    average and the sample (window 3), and above both (window 100, close to
    the subnormal numbers, where the quotients are rounded more coarsely than
    the average). *)
Example approxRollingAverage_rounding :
  approxRollingAverage 6755399441055745%float 6755399441055745%float 3%float
  = 6755399441055744%float
  /\ PrimFloat.ltb
       (approxRollingAverage 6755399441055745%float 6755399441055745%float
          3%float)
       6755399441055745%float = true
  /\ approxRollingAverage 0x1.33df09e97ef3fp-1017%float
       0x1.33df09e97ef3fp-1017%float 100%float
     = 0x1.33df09e97ef4p-1017%float
  /\ PrimFloat.ltb 0x1.33df09e97ef3fp-1017%float
       (approxRollingAverage 0x1.33df09e97ef3fp-1017%float
          0x1.33df09e97ef3fp-1017%float 100%float) = true.
Proof. repeat split; vm_compute; reflexivity. Qed.

(** A run of the worker in a worker scope: 150 verified passes, then a
    failed verification. *)
Example run_example :
  posted (snd (bootstrap (Hosts.failing_after 150) false 1000 [] initial_world))
  = ["totalSamples 0,000,000,100 generate 3.170ms hash 3.170ms sign 3.170ms verify 3.170ms"]
  /\ console_errors
       (snd (bootstrap (Hosts.failing_after 150) false 1000 [] initial_world))
     = ["Failed to Verify"]
  /\ fst (bootstrap (Hosts.failing_after 150) false 1000 [] initial_world)
     = None
  /\ totalSamples
       (averages_of
          (while_looping (Hosts.failing_after 150) 1000 [] []
             initial_averages initial_world))
     = 150.
Proof. repeat split; vm_compute; reflexivity. Qed.

(** The same run as a standalone process: pass 100 cannot post its line. *)
Example standalone_run_example :
  bootstrap (Hosts.node_main (Hosts.failing_after 150)) true 1000 []
    initial_world
  = (Some 1,
     {| clock_reads := 800; random_draws := 100; posted := [];
        console_errors :=
          ["Fatal TypeError: self.postMessage is not a function"] |})
  /\ bootstrap (Hosts.node_main (Hosts.failing_after 50)) true 1000 []
       initial_world
     = (Some 0,
        {| clock_reads := 408; random_draws := 51; posted := [];
           console_errors := ["Failed to Verify"] |}).
Proof. repeat split; vm_compute; reflexivity. Qed.

(** * The properties of the specification *)

(** C1: in every pass of the loop in which [verify] returns [false], whatever
    passes came before and however many more the loop would be given, the
    loop logs the error report and exits at once: the averages and
    [totalSamples] are exactly those before the pass, nothing is posted, and
    the clock shows that only this one pass ran. *)
Theorem verify_false_stops_the_loop
  (host : Host) (privateKey publicKey : bytes) (k more : nat)
  (st0 st : Averages) (w0 w : World) :
  while_looping host k privateKey publicKey st0 w0
  = (Normal (StillLooping st), w) ->
  verify_outcome host privateKey publicKey w = Some false ->
  exists w',
    while_looping host (k + S more) privateKey publicKey st0 w0
    = (Normal (Exited st), w')
    /\ posted w' = posted w
    /\ console_errors w' = (console_errors w ++ ["Failed to Verify"])%list
    /\ clock_reads w' = (8 + clock_reads w)%nat
    /\ random_draws w' = S (random_draws w).
Proof.
  intros Hrun Hv. rewrite loop_add, Hrun, (loop_failed _ _ _ more st w Hv).
  eexists. split; [reflexivity|].
  cbn [after_pass posted console_errors clock_reads random_draws].
  rewrite app_nil_r. repeat split.
Qed.

Lemma verify_false_stops_the_loop_witness :
  exists w',
    while_looping (Hosts.failing_after 2) (2 + 6) [] [] initial_averages
      initial_world
    = (Normal
         (Exited
            (averages_of
               (while_looping (Hosts.failing_after 2) 2 [] []
                  initial_averages initial_world))),
       w')
    /\ posted w'
       = posted (snd (while_looping (Hosts.failing_after 2) 2 [] []
                        initial_averages initial_world))
    /\ console_errors w'
       = (console_errors
            (snd (while_looping (Hosts.failing_after 2) 2 [] []
                    initial_averages initial_world))
          ++ ["Failed to Verify"])%list
    /\ clock_reads w'
       = (8 + clock_reads
                (snd (while_looping (Hosts.failing_after 2) 2 [] []
                        initial_averages initial_world)))%nat
    /\ random_draws w'
       = S (random_draws
              (snd (while_looping (Hosts.failing_after 2) 2 [] []
                      initial_averages initial_world))).
Proof.
  apply (verify_false_stops_the_loop (Hosts.failing_after 2) [] [] 2 5
           initial_averages).
  - vm_compute. reflexivity.
  - vm_compute. reflexivity.
Defined.

(** C2: for every current average [avg] and every new sample [s],
    [approxRollingAverage avg s 100] equals [avg - avg/100 + s/100];
    consequently an average fed any sequence of samples from [0] (100 of
    them in particular) equals the result of iterating that rule from [0],
    and so does each of the four averages of [main] after any number of
    passes, on the durations the passes measured for its stage. *)
Theorem rolling_average_is_the_ema_rule :
  (forall avg s : number, approxRollingAverage avg s 100%float = ema_rule avg s)
  /\ (forall samples : list number,
        feed_samples 100%float samples 0%float
        = iterate_ema_rule samples 0%float)
  /\ (forall (host : Host) (privateKey publicKey : bytes) (k : nat)
        (w : World) (st : Averages) (w' : World),
        while_looping host k privateKey publicKey initial_averages w
        = (Normal (StillLooping st), w') ->
        generateDataAverage st
        = iterate_ema_rule (stage_samples host 0 (clock_reads w) k) 0%float
        /\ hashDataAverage st
           = iterate_ema_rule (stage_samples host 1 (clock_reads w) k) 0%float
        /\ signDataAverage st
           = iterate_ema_rule (stage_samples host 2 (clock_reads w) k) 0%float
        /\ verifyAverage st
           = iterate_ema_rule (stage_samples host 3 (clock_reads w) k) 0%float).
Proof.
  split; [exact approxRollingAverage_ema_rule|].
  split; [intros samples; apply feed_samples_iterate|].
  intros host privateKey publicKey k w st w' Hrun.
  apply still_looping in Hrun.
  destruct Hrun as (Hg & Hh & Hs & Hv & _).
  rewrite <- !feed_samples_iterate. repeat split; assumption.
Qed.

Lemma rolling_average_is_the_ema_rule_witness :
  generateDataAverage
    (averages_of
       (while_looping (Hosts.steady 5 true) 100 [] [] initial_averages
          initial_world))
  = iterate_ema_rule (stage_samples (Hosts.steady 5 true) 0 0 100) 0%float.
Proof.
  refine (proj1 (proj2 (proj2 rolling_average_is_the_ema_rule)
                   (Hosts.steady 5 true) [] [] 100%nat initial_world _
                   (snd (while_looping (Hosts.steady 5 true) 100 [] []
                           initial_averages initial_world)) _)).
  vm_compute. reflexivity.
Defined.

(** C3, as stated, fails: a constant sample of [5.0] fed 100 times from [0]
    gives the token ["3.170ms"], not ["3.205ms"], and the closed form
    [5.0 * (1 - 0.99^100)] itself is below [3.17]. *)
Lemma constant_five_token_is_3_170 :
  average_token (feed_samples 100%float (repeat 5%float 100) 0%float) = "3.170ms"
  /\ String.eqb
       (average_token (feed_samples 100%float (repeat 5%float 100) 0%float))
       "3.205ms" = false
  /\ (closed_form_5_100 < 317 # 100)%Q.
Proof. repeat split; vm_compute; reflexivity. Qed.

(** C3, amended: feeding a stage average a constant sample of [5.0] for 100
    consecutive updates starting from [0] yields the binary64 number
    [7137841279017059 * 2^-51], which is within [10^-14] of
    [5.0 * (1 - 0.99^100)], a value between [3.169838] and [3.169839]; the
    reporter formats it as the token ["3.170ms"].  So does the worker itself
    on a host whose clock advances by 5 between two readings: all four
    stages then measure [5.0] in every pass, and the line posted in pass 100
    shows ["3.170ms"] four times. *)
Theorem constant_five_average :
  Prim2SF (feed_samples 100%float (repeat 5%float 100) 0%float)
  = S754_finite false 7137841279017059 (-51)
  /\ JSNumberOps.value (feed_samples 100%float (repeat 5%float 100) 0%float)
     = JSNumberOps.Finite (7137841279017059 # 2 ^ 51)
  /\ (Qabs ((7137841279017059 # 2 ^ 51) - closed_form_5_100) < 1 # 10 ^ 14)%Q
  /\ (3169838 # 1000000 < closed_form_5_100)%Q
  /\ (closed_form_5_100 < 3169839 # 1000000)%Q
  /\ average_token (feed_samples 100%float (repeat 5%float 100) 0%float)
     = "3.170ms"
  /\ stage_samples (Hosts.steady 5 true) 0 0 100 = repeat 5%float 100
  /\ posted
       (snd (while_looping (Hosts.steady 5 true) 100 [] [] initial_averages
               initial_world))
     = ["totalSamples 0,000,000,100 generate 3.170ms hash 3.170ms sign 3.170ms verify 3.170ms"].
Proof. repeat split; vm_compute; reflexivity. Qed.

(** C4: run as a standalone process, the exit code is [1] exactly when the
    run ends in an uncaught error: the setup rejects, or, after passes that
    all verified, a library call of the next pass rejects or [postMessage]
    is called where the global object has none; the error is then reported
    as fatal.  The exit code is [0] exactly when the loop was left
    gracefully, that is when, after passes that all verified, [verify]
    returned [false]; the failed verification is then the one line on the
    console.  Short of an error and of a failed verification the loop runs
    on: no exit code is set exactly when all passes so far verified, and
    that is so after any number of passes each of which verifies and posts
    what it has to post.  In the global scope of Node, which has no
    [postMessage], pass 100 cannot post its line, so by then the process has
    ended, with [0] or [1]. *)
Theorem process_exit_code
  (host : Host) (passes : nat) (args : list string) (w : World) :
  (fst (bootstrap host true passes args w) = Some 1
   <-> fatal_error host passes w)
  /\ (fst (bootstrap host true passes args w) = Some 0
      <-> failed_verification host passes w)
  /\ (fst (bootstrap host true passes args w) = None
      <-> still_running host passes w)
  /\ (fst (bootstrap host true passes args w) = Some 1 ->
      exists e,
        console_errors (snd (bootstrap host true passes args w))
        = (console_errors w ++ [("Fatal " ++ e)%string])%list)
  /\ (fst (bootstrap host true passes args w) = Some 0 ->
      console_errors (snd (bootstrap host true passes args w))
      = (console_errors w ++ ["Failed to Verify"])%list)
  /\ (fst (bootstrap host true passes args w) = None ->
      console_errors (snd (bootstrap host true passes args w))
      = console_errors w)
  /\ (forall privateKey publicKey,
        ed25519_randomPrivateKey host = Normal privateKey ->
        ed25519_getPublicKey host privateKey = Normal publicKey ->
        (forall (k : nat) (st : Averages) (w1 : World),
           (k < passes)%nat ->
           while_looping host k privateKey publicKey initial_averages w
           = (Normal (StillLooping st), w1) ->
           verify_outcome host privateKey publicKey w1 = Some true
           /\ post_fails host (record_pass host st (clock_reads w1)) = false) ->
        fst (bootstrap host true passes args w) = None)
  /\ (global_postMessage host = false ->
      (100 <= passes)%nat ->
      fst (bootstrap host true passes args w) = Some 0
      \/ fst (bootstrap host true passes args w) = Some 1).
Proof.
  pose proof (fatal_error_exit_code host passes args w) as Hfatal.
  pose proof (failed_verification_exit_code host passes args w) as Hfailed.
  pose proof (still_running_exit_code host passes args w) as Hrunning.
  pose proof (run_cases host passes w) as Hcases.
  pose proof (standalone_console host passes args w) as Hconsole.
  split; [|split; [|split; [|split; [|split; [|split; [|split]]]]]].
  - split; [|exact Hfatal]. intros Hcode.
    destruct Hcases as [H|[H|H]]; [exact H| |].
    + rewrite (Hfailed H) in Hcode. discriminate Hcode.
    + rewrite (Hrunning H) in Hcode. discriminate Hcode.
  - split; [|exact Hfailed]. intros Hcode.
    destruct Hcases as [H|[H|H]]; [|exact H|].
    + rewrite (Hfatal H) in Hcode. discriminate Hcode.
    + rewrite (Hrunning H) in Hcode. discriminate Hcode.
  - split; [|exact Hrunning]. intros Hcode.
    destruct Hcases as [H|[H|H]]; [| |exact H].
    + rewrite (Hfatal H) in Hcode. discriminate Hcode.
    + rewrite (Hfailed H) in Hcode. discriminate Hcode.
  - intros Hcode. rewrite Hcode in Hconsole. exact Hconsole.
  - intros Hcode. rewrite Hcode in Hconsole. exact Hconsole.
  - intros Hcode. rewrite Hcode in Hconsole. exact Hconsole.
  - intros privateKey publicKey Hsk Hpk Hgood.
    destruct Hcases as [H|[H|H]]; [exfalso|exfalso|now apply Hrunning].
    + destruct H as [(e & He)|[(sk & e & Hsk' & He)
                             |(sk & pk & k & st & w1
                               & Hsk' & Hpk' & Hk & Hrun & Hend)]].
      * congruence.
      * congruence.
      * assert (sk = privateKey) by congruence. subst sk.
        assert (pk = publicKey) by congruence. subst pk.
        destruct (Hgood k st w1 Hk Hrun) as [Hv Hpost].
        destruct Hend as [Hrej|[_ Hfails]]; [|congruence].
        apply (rejection_outcome host privateKey publicKey) in Hrej.
        congruence.
    + destruct H as (sk & pk & k & st & w1 & Hsk' & Hpk' & Hk & Hrun & Hv).
      assert (sk = privateKey) by congruence. subst sk.
      assert (pk = publicKey) by congruence. subst pk.
      destruct (Hgood k st w1 Hk Hrun) as [Hv' _]. congruence.
  - intros Hscope Hpasses.
    destruct Hcases as [H|[H|H]]; [right; now apply Hfatal
                                  |left; now apply Hfailed|exfalso].
    destruct H as (privateKey & publicKey & st & w1 & _ & _ & Hrun).
    pose proof (loop_without_postMessage_ends host privateKey publicKey
                  passes w st w1 Hscope Hrun).
    lia.
Qed.

Lemma process_exit_code_witness :
  fst (bootstrap (Hosts.node_main (Hosts.steady 5 true)) true 150 []
         initial_world) = Some 0
  \/ fst (bootstrap (Hosts.node_main (Hosts.steady 5 true)) true 150 []
            initial_world) = Some 1.
Proof.
  apply (proj2 (proj2 (proj2 (proj2 (proj2 (proj2 (proj2
           (process_exit_code (Hosts.node_main (Hosts.steady 5 true)) 150 []
              initial_world)))))))).
  - reflexivity.
  - cbn. lia.
Defined.




(** C6: for [totalSamples = 1234567] the decimal representation padded to
    10 digits is ["0001234567"] and the sample-count token, its comma-grouped
    form, is exactly ["0,001,234,567"]. *)
Theorem sample_count_token_1234567 :
  JSString.padStart 10 "0" (JSString.digits_of_Z 1234567) = "0001234567"
  /\ sample_count_token 1234567 = "0,001,234,567".
Proof. split; vm_compute; reflexivity. Qed.




(** C10, as stated, fails on an input that has a comma of its own: on
    ["1,000"] the function inserts nothing, and deleting every comma from
    the output gives ["1000"], which is not the input. *)
Lemma delete_commas_loses_input_comma :
  numberWithCommas "1,000" = "1,000"
  /\ JSString.delete_commas (numberWithCommas "1,000") = "1000"
  /\ String.eqb (JSString.delete_commas (numberWithCommas "1,000")) "1,000" = false.
Proof. repeat split; vm_compute; reflexivity. Qed.

(** C10, amended: [numberWithCommas] only inserts commas.  For every input
    string the output is the input with commas put in (no character of the
    input changed, removed or reordered); deleting every comma from the
    output gives the input with its own commas deleted, hence the input
    itself whenever the input has no comma. *)
Theorem numberWithCommas_only_inserts_commas (x : string) :
  commas_inserted x (numberWithCommas x)
  /\ JSString.delete_commas (numberWithCommas x) = JSString.delete_commas x
  /\ (JSString.has_comma x = false ->
      JSString.delete_commas (numberWithCommas x) = x).
Proof.
  unfold numberWithCommas, Regex.replace_all.
  split; [apply replace_from_inserted|].
  split; [apply delete_commas_replace_from|].
  intros Hx. rewrite delete_commas_replace_from.
  now apply delete_commas_without_comma.
Qed.

Lemma numberWithCommas_only_inserts_commas_witness :
  JSString.has_comma "1234567.891" = false
  /\ JSString.delete_commas (numberWithCommas "1234567.891") = "1234567.891".
Proof.
  split; [reflexivity|].
  apply (numberWithCommas_only_inserts_commas "1234567.891").
  reflexivity.
Defined.

(** * Further properties of the code *)

(** X1: on a string of decimal digits [numberWithCommas] puts a comma in
    front of every group of three digits counted from the right, and
    nowhere else: the result is the thousands grouping of the string. *)
Theorem numberWithCommas_groups_digits (x : string) :
  all_digits x = true ->
  numberWithCommas x = group_thousands x.
Proof.
  intros Hx. unfold numberWithCommas, Regex.replace_all.
  destruct (replace_from_digits "" x None eq_refl Hx eq_refl) as [prev' H].
  rewrite append_empty_r in H. rewrite H, replace_from_end.
  apply append_empty_r.
Qed.

Lemma numberWithCommas_groups_digits_witness :
  numberWithCommas "12345678" = group_thousands "12345678".
Proof.
  apply (numberWithCommas_groups_digits "12345678"). reflexivity.
Defined.

(** X2: on a decimal numeral (an optional minus sign, digits, a point,
    digits) the whole part is grouped as a number of its own and no comma
    touches the sign or the point; the fraction is left alone when it has at
    most three digits, as [toFixed(3)] gives it, and is grouped like a whole
    number when it has more. *)
Theorem numberWithCommas_numeral (negative : bool) (whole fraction : string) :
  all_digits whole = true ->
  all_digits fraction = true ->
  numberWithCommas
    ((if negative then "-" else "") ++ whole ++ "." ++ fraction)
  = (if negative then "-" else "")
    ++ group_thousands whole ++ "." ++ group_thousands fraction
  /\ ((String.length fraction <= 3)%nat ->
      numberWithCommas
        ((if negative then "-" else "") ++ whole ++ "." ++ fraction)
      = (if negative then "-" else "")
        ++ group_thousands whole ++ "." ++ fraction).
Proof. exact (numeral_commas negative whole fraction). Qed.

Lemma numberWithCommas_numeral_witness :
  numberWithCommas ("-" ++ "1234567" ++ "." ++ "891")
  = "-" ++ group_thousands "1234567" ++ "." ++ "891".
Proof.
  apply (proj2 (numberWithCommas_numeral true "1234567" "891"
                  eq_refl eq_refl)).
  cbn. lia.
Defined.

(** X3: for every average in the range [toFixed] prints in fixed notation
    (finite, magnitude below [10^21]) the token of the status line is an
    optional minus sign, the whole part of the number with thousands
    separators, a point, exactly three digits and ["ms"]; no comma falls
    behind the point. *)
Theorem average_token_shape (average : number) :
  JSNumberOps.in_fixed_range average = true ->
  exists (negative : bool) (whole fraction : string),
    all_digits whole = true
    /\ (1 <= String.length whole)%nat
    /\ all_digits fraction = true
    /\ String.length fraction = 3%nat
    /\ JSNumberOps.toFixed average 3
       = (if negative then "-" else "") ++ whole ++ "." ++ fraction
    /\ average_token average
       = (if negative then "-" else "")
         ++ group_thousands whole ++ "." ++ fraction ++ "ms".
Proof.
  intros Hr.
  destruct (toFixed_numeral average Hr)
    as (negative & whole & fraction & Hw & Hwl & Hf & Hfl & Hfix).
  exists negative, whole, fraction. repeat split; try assumption.
  unfold average_token. rewrite Hfix.
  rewrite (proj2 (numeral_commas negative whole fraction Hw Hf)) by lia.
  now rewrite !append_assoc.
Qed.

Lemma average_token_shape_witness :
  exists (negative : bool) (whole fraction : string),
    all_digits whole = true
    /\ (1 <= String.length whole)%nat
    /\ all_digits fraction = true
    /\ String.length fraction = 3%nat
    /\ JSNumberOps.toFixed 1234567.875%float 3
       = (if negative then "-" else "") ++ whole ++ "." ++ fraction
    /\ average_token 1234567.875%float
       = (if negative then "-" else "")
         ++ group_thousands whole ++ "." ++ fraction ++ "ms".
Proof.
  apply (average_token_shape 1234567.875%float). vm_compute. reflexivity.
Defined.

(** X4: the sample-count token is the thousands grouping of the padded
    decimal count.  For a count below [10^10] it has the shape
    [d,ddd,ddd,ddd], 13 characters; from [10^10] on the padding adds nothing
    and the token is the grouping of the plain decimal count. *)
Theorem sample_count_token_shape (n : Z) :
  sample_count_token n
  = group_thousands (JSString.padStart 10 "0" (JSString.digits_of_Z n))
  /\ (0 <= n < 10 ^ 10 ->
      exists a b c d,
        String.length a = 1%nat /\ String.length b = 3%nat
        /\ String.length c = 3%nat /\ String.length d = 3%nat
        /\ all_digits (a ++ b ++ c ++ d) = true
        /\ JSString.padStart 10 "0" (JSString.digits_of_Z n) = a ++ b ++ c ++ d
        /\ sample_count_token n = a ++ "," ++ b ++ "," ++ c ++ "," ++ d)
  /\ (10 ^ 10 <= n ->
      sample_count_token n = group_thousands (JSString.digits_of_Z n)).
Proof.
  destruct (digits_of_Z_digits n) as (Hd & _ & Hpos).
  pose proof (all_digits_padStart 10 _ Hd) as Hpad.
  assert (Htoken : sample_count_token n
                   = group_thousands
                       (JSString.padStart 10 "0" (JSString.digits_of_Z n))).
  { unfold sample_count_token. unfold numberWithCommas, Regex.replace_all.
    destruct (replace_from_digits "" _ None eq_refl Hpad eq_refl)
      as [prev' H].
    rewrite append_empty_r in H. rewrite H, replace_from_end.
    apply append_empty_r. }
  split; [exact Htoken|]. split.
  - intros Hn.
    assert (Hlen : (String.length (JSString.digits_of_Z n) <= 10)%nat).
    { destruct (Z.eq_dec n 0) as [->|Hn0]; [vm_compute; lia|].
      destruct (digits_of_Z_length n) as [Hlo _]; [lia|].
      assert (Hlt : 10 ^ Z.of_nat (String.length (JSString.digits_of_Z n) - 1)
                    < 10 ^ 10) by lia.
      apply Z.pow_lt_mono_r_iff in Hlt; lia. }
    destruct (length_10 (JSString.padStart 10 "0" (JSString.digits_of_Z n)))
      as (a & b & c & d & Ha & Hb & Hc & Hd' & Hs & Hg).
    { rewrite length_padStart_exact. lia. }
    exists a, b, c, d. rewrite <- Hs, Htoken, Hg. repeat split; assumption.
  - intros Hn. rewrite Htoken. f_equal.
    destruct (digits_of_Z_length n) as [_ Hhi]; [lia|].
    assert (Hlt : 10 ^ 10
                  < 10 ^ Z.of_nat (String.length (JSString.digits_of_Z n)))
      by lia.
    apply Z.pow_lt_mono_r_iff in Hlt; [|lia|lia].
    unfold JSString.padStart.
    replace (10 - String.length (JSString.digits_of_Z n))%nat with 0%nat
      by lia.
    reflexivity.
Qed.

Lemma sample_count_token_shape_witness :
  exists a b c d,
    String.length a = 1%nat /\ String.length b = 3%nat
    /\ String.length c = 3%nat /\ String.length d = 3%nat
    /\ all_digits (a ++ b ++ c ++ d) = true
    /\ JSString.padStart 10 "0" (JSString.digits_of_Z 4200) = a ++ b ++ c ++ d
    /\ sample_count_token 4200 = a ++ "," ++ b ++ "," ++ c ++ "," ++ d.
Proof.
  apply (proj1 (proj2 (sample_count_token_shape 4200))). lia.
Defined.

(** X5: a run of [k] verified passes from the start (up to [2^53]) reads the
    clock [8 k] times, draws [k] samples, writes nothing to the console and
    posts exactly [k / 100] lines, the [j]-th of which carries the count
    [100 j]. *)
Theorem verified_run_output
  (host : Host) (privateKey publicKey : bytes) (k : nat)
  (w : World) (st : Averages) (w' : World) :
  Z.of_nat k <= 2 ^ 53 ->
  while_looping host k privateKey publicKey initial_averages w
  = (Normal (StillLooping st), w') ->
  totalSamples st = Z.of_nat k
  /\ clock_reads w' = (8 * k + clock_reads w)%nat
  /\ random_draws w' = (k + random_draws w)%nat
  /\ console_errors w' = console_errors w
  /\ exists sts,
       posted w' = (posted w ++ map status_line sts)%list
       /\ map totalSamples sts
          = map (fun j => 100 * Z.of_nat (S j)) (seq 0 (k / 100)).
Proof. apply verified_run. Qed.

Lemma verified_run_output_witness :
  totalSamples
    (averages_of
       (while_looping (Hosts.steady 5 true) 250 [] [] initial_averages
          initial_world))
  = Z.of_nat 250
  /\ clock_reads
       (snd (while_looping (Hosts.steady 5 true) 250 [] [] initial_averages
               initial_world))
     = (8 * 250 + clock_reads initial_world)%nat
  /\ random_draws
       (snd (while_looping (Hosts.steady 5 true) 250 [] [] initial_averages
               initial_world))
     = (250 + random_draws initial_world)%nat
  /\ console_errors
       (snd (while_looping (Hosts.steady 5 true) 250 [] [] initial_averages
               initial_world))
     = console_errors initial_world
  /\ exists sts,
       posted
         (snd (while_looping (Hosts.steady 5 true) 250 [] [] initial_averages
                 initial_world))
       = (posted initial_world ++ map status_line sts)%list
       /\ map totalSamples sts
          = map (fun j => 100 * Z.of_nat (S j)) (seq 0 (250 / 100)).
Proof.
  apply (verified_run_output (Hosts.steady 5 true) [] [] 250 initial_world).
  - vm_compute. discriminate.
  - vm_compute. reflexivity.
Defined.

(** X7: a failed verification is not a fatal error.  When the setup
    succeeds and the pass after [k] passes that verified and posted what
    they had to post fails to verify, every longer run ends the same way:
    the console gets the one line ["Failed to Verify"], nothing more is
    posted, and the standalone process is given the exit code [0]; in a
    worker no exit code is set.  (In the global scope of Node, which has no
    [postMessage], there are such [k] passes only for [k < 100].) *)
Theorem failed_verification_exits_with_0
  (host : Host) (args : list string) (k passes : nat)
  (privateKey publicKey : bytes) (st : Averages) (w0 w : World) :
  ed25519_randomPrivateKey host = Normal privateKey ->
  ed25519_getPublicKey host privateKey = Normal publicKey ->
  while_looping host k privateKey publicKey initial_averages w0
  = (Normal (StillLooping st), w) ->
  verify_outcome host privateKey publicKey w = Some false ->
  (k < passes)%nat ->
  fst (bootstrap host true passes args w0) = Some 0
  /\ fst (bootstrap host false passes args w0) = None
  /\ forall standalone,
       posted (snd (bootstrap host standalone passes args w0)) = posted w
       /\ console_errors (snd (bootstrap host standalone passes args w0))
          = (console_errors w ++ ["Failed to Verify"])%list.
Proof.
  intros Hsk Hpk Hrun Hv Hk.
  assert (Hmain : main host passes args w0
                  = (Normal (Some 0), after_pass w [] ["Failed to Verify"])).
  { rewrite (main_after_setup host passes args w0 _ _ Hsk Hpk).
    replace passes with (k + S (passes - S k))%nat by lia.
    now rewrite loop_add, Hrun, (loop_failed _ _ _ _ st w Hv). }
  split; [unfold bootstrap; now rewrite Hmain|].
  split; [unfold bootstrap; now rewrite Hmain|].
  intros standalone. unfold bootstrap. rewrite Hmain.
  destruct standalone; cbn [snd after_pass posted console_errors];
    now rewrite app_nil_r.
Qed.

Lemma failed_verification_exits_with_0_witness :
  fst (bootstrap (Hosts.node_main (Hosts.failing_after 2)) true 10 []
         initial_world) = Some 0
  /\ fst (bootstrap (Hosts.node_main (Hosts.failing_after 2)) false 10 []
            initial_world) = None
  /\ forall standalone,
       posted (snd (bootstrap (Hosts.node_main (Hosts.failing_after 2))
                      standalone 10 [] initial_world))
       = posted
           (snd (while_looping (Hosts.node_main (Hosts.failing_after 2)) 2
                   (repeat Byte.x01 32) (repeat Byte.x01 32)
                   initial_averages initial_world))
       /\ console_errors
            (snd (bootstrap (Hosts.node_main (Hosts.failing_after 2))
                    standalone 10 [] initial_world))
          = (console_errors
               (snd (while_looping (Hosts.node_main (Hosts.failing_after 2)) 2
                       (repeat Byte.x01 32) (repeat Byte.x01 32)
                       initial_averages initial_world))
             ++ ["Failed to Verify"])%list.
Proof.
  apply (failed_verification_exits_with_0
           (Hosts.node_main (Hosts.failing_after 2)) [] 2 10
           (repeat Byte.x01 32) (repeat Byte.x01 32)
           (averages_of
              (while_looping (Hosts.node_main (Hosts.failing_after 2)) 2
                 (repeat Byte.x01 32) (repeat Byte.x01 32)
                 initial_averages initial_world))).
  - reflexivity.
  - reflexivity.
  - vm_compute. reflexivity.
  - vm_compute. reflexivity.
  - lia.
Defined.

(** X8: when the setup fails (no private key, or no public key for it) the
    loop never starts: the clock is not read, no sample is drawn, nothing is
    posted; the error is reported as ["Fatal"] with the library's message,
    and the standalone process exits with code [1]. *)
Theorem setup_failure_is_fatal
  (host : Host) (standalone : bool) (passes : nat) (args : list string)
  (w : World) (e : Error) :
  ed25519_randomPrivateKey host = Throw e
  \/ (exists privateKey,
        ed25519_randomPrivateKey host = Normal privateKey
        /\ ed25519_getPublicKey host privateKey = Throw e) ->
  bootstrap host standalone passes args w
  = (if standalone then Some 1 else None,
     {| clock_reads := clock_reads w;
        random_draws := random_draws w;
        posted := posted w;
        console_errors := console_errors w ++ [("Fatal " ++ e)%string] |}).
Proof.
  intros Hsetup.
  assert (Hmain : main host passes args w = (Throw e, w)).
  { rewrite main_unfold.
    destruct Hsetup as [->|(privateKey & -> & ->)]; reflexivity. }
  unfold bootstrap. rewrite Hmain. destruct standalone; reflexivity.
Qed.

Lemma setup_failure_is_fatal_witness :
  bootstrap Hosts.without_entropy true 100 [] initial_world
  = (Some 1,
     {| clock_reads := clock_reads initial_world;
        random_draws := random_draws initial_world;
        posted := posted initial_world;
        console_errors :=
          console_errors initial_world ++ [("Fatal " ++ "no entropy")%string] |}).
Proof.
  apply (setup_failure_is_fatal Hosts.without_entropy true 100 []
           initial_world "no entropy").
  left. reflexivity.
Defined.

(** X9: nothing is retried.  When a library call rejects in the pass after
    [k] passes that verified and posted what they had to post, the stages
    after it do not run (the clock has been read 1, 3, 5 or 7 times in that
    pass), nothing is posted in that pass, and the error reaches the console
    unchanged as ["Fatal"]; the standalone process exits with code [1].  (In
    the global scope of Node, which has no [postMessage], there are such [k]
    passes only for [k < 100].) *)
Theorem library_error_is_fatal
  (host : Host) (standalone : bool) (args : list string) (k passes : nat)
  (privateKey publicKey : bytes) (st : Averages) (w0 w : World)
  (e : Error) (reads : nat) :
  ed25519_randomPrivateKey host = Normal privateKey ->
  ed25519_getPublicKey host privateKey = Normal publicKey ->
  while_looping host k privateKey publicKey initial_averages w0
  = (Normal (StillLooping st), w) ->
  pass_rejection host privateKey publicKey w = Some (e, reads) ->
  (k < passes)%nat ->
  bootstrap host standalone passes args w0
  = (if standalone then Some 1 else None,
     {| clock_reads := reads + clock_reads w;
        random_draws := S (random_draws w);
        posted := posted w;
        console_errors := console_errors w ++ [("Fatal " ++ e)%string] |}).
Proof.
  intros Hsk Hpk Hrun Hrej Hk.
  assert (Hmain : main host passes args w0
                  = (Throw e,
                     {| clock_reads := reads + clock_reads w;
                        random_draws := S (random_draws w);
                        posted := posted w;
                        console_errors := console_errors w |})).
  { rewrite (main_after_setup host passes args w0 _ _ Hsk Hpk).
    replace passes with (k + S (passes - S k))%nat by lia.
    now rewrite loop_add, Hrun, (loop_rejection _ _ _ _ st w e reads Hrej). }
  unfold bootstrap. rewrite Hmain. destruct standalone; reflexivity.
Qed.

Lemma library_error_is_fatal_witness :
  bootstrap (Hosts.node_main (MoreHosts.signing_breaks_after 2)) true 10 [] initial_world
  = (Some 1,
     {| clock_reads :=
          5 + clock_reads
                (snd (while_looping (Hosts.node_main (MoreHosts.signing_breaks_after 2)) 2
                        (repeat Byte.x01 32) (repeat Byte.x01 32)
                        initial_averages initial_world));
        random_draws :=
          S (random_draws
               (snd (while_looping (Hosts.node_main (MoreHosts.signing_breaks_after 2)) 2
                       (repeat Byte.x01 32) (repeat Byte.x01 32)
                       initial_averages initial_world)));
        posted :=
          posted
            (snd (while_looping (Hosts.node_main (MoreHosts.signing_breaks_after 2)) 2
                    (repeat Byte.x01 32) (repeat Byte.x01 32)
                    initial_averages initial_world));
        console_errors :=
          console_errors
            (snd (while_looping (Hosts.node_main (MoreHosts.signing_breaks_after 2)) 2
                    (repeat Byte.x01 32) (repeat Byte.x01 32)
                    initial_averages initial_world))
          ++ [("Fatal " ++ "invalid private key")%string] |}).
Proof.
  apply (library_error_is_fatal (Hosts.node_main (MoreHosts.signing_breaks_after 2)) true [] 2 10
           (repeat Byte.x01 32) (repeat Byte.x01 32)
           (averages_of
              (while_looping (Hosts.node_main (MoreHosts.signing_breaks_after 2)) 2
                 (repeat Byte.x01 32) (repeat Byte.x01 32)
                 initial_averages initial_world))).
  - reflexivity.
  - reflexivity.
  - vm_compute. reflexivity.
  - vm_compute. reflexivity.
  - lia.
Defined.

(** X10: a clock too coarse to see a stage gives durations of [0]; then all
    four averages stay [0] for as long as the loop runs, and every line the
    run posts, however it ends, reports [0.000ms] for all four stages. *)
Theorem idle_clock_reports_zero
  (host : Host) (privateKey publicKey : bytes) (k : nat)
  (w : World) (r : Completion LoopResult) (w' : World) :
  (forall t, measured host t = 0%float) ->
  while_looping host k privateKey publicKey initial_averages w = (r, w') ->
  (forall st, r = Normal (StillLooping st) -> idle_averages st)
  /\ exists new,
       posted w' = (posted w ++ new)%list /\ Forall idle_line new.
Proof.
  intros Hidle Hrun.
  apply (idle_run host privateKey publicKey k Hidle initial_averages w r w');
    [|exact Hrun].
  repeat split.
Qed.

Lemma idle_clock_reports_zero_witness :
  (forall st,
      fst (while_looping MoreHosts.coarse_clock 200 [] [] initial_averages
             initial_world)
      = Normal (StillLooping st) ->
      idle_averages st)
  /\ exists new,
       posted
         (snd (while_looping MoreHosts.coarse_clock 200 [] [] initial_averages
                 initial_world))
       = (posted initial_world ++ new)%list
       /\ Forall idle_line new.
Proof.
  apply (idle_clock_reports_zero MoreHosts.coarse_clock [] [] 200
           initial_world).
  - intros t. reflexivity.
  - vm_compute. reflexivity.
Defined.

(** X11: [main] hands [verify] the signature it got from [sign] for the
    same digest, and the public key derived from the private key it signed
    with.  So with a library whose [verify] accepts every signature [sign]
    produced under the matching key, the loop never fails: ["Failed to
    Verify"] is never logged and the standalone process never gets the exit
    code [0]: it is still running, or it has ended with the exit code [1]
    (as it does in pass 100 in the global scope of Node). *)
Theorem sound_library_never_fails
  (host : Host) (passes : nat) (args : list string) (w : World) :
  (forall privateKey publicKey dataHash signature,
     ed25519_getPublicKey host privateKey = Normal publicKey ->
     ed25519_sign host dataHash privateKey = Normal signature ->
     ed25519_verify host signature dataHash publicKey = Normal true) ->
  console_errors (snd (main host passes args w)) = console_errors w
  /\ (fst (bootstrap host true passes args w) = None
      \/ fst (bootstrap host true passes args w) = Some 1).
Proof.
  intros Hsound.
  pose proof (main_with_sound_library host passes args w Hsound) as Hnever.
  unfold bootstrap.
  destruct (main host passes args w) as [[[code|]|e] w'] eqn:Hmain.
  - exfalso. exact (Hnever code w' eq_refl).
  - cbn [fst snd].
    rewrite (main_console host passes args w _ _ Hmain), app_nil_r.
    split; [reflexivity|now left].
  - cbn [fst snd].
    rewrite (main_console host passes args w _ _ Hmain), app_nil_r.
    split; [reflexivity|now right].
Qed.

Lemma sound_library_never_fails_witness :
  console_errors
    (snd (main (Hosts.node_main (Hosts.steady 5 true)) 300 [] initial_world))
  = console_errors initial_world
  /\ (fst (bootstrap (Hosts.node_main (Hosts.steady 5 true)) true 300 []
              initial_world) = None
      \/ fst (bootstrap (Hosts.node_main (Hosts.steady 5 true)) true 300 []
                initial_world)
         = Some 1).
Proof.
  apply (sound_library_never_fails (Hosts.node_main (Hosts.steady 5 true)) 300
           [] initial_world).
  intros privateKey publicKey dataHash signature _ _. reflexivity.
Defined.

(** X14: on a page that has the element [#pre], the script shows the log
    newest first: after the messages of the worker have arrived in the order
    they were posted, the element holds one text node per message, each the
    message and a line feed, in reverse order, in front of what the element
    held before, which is untouched; one worker was spawned. *)
Theorem page_shows_newest_first
  (children : list Page.Node) (messages : list string) :
  fst (Page.index_ts (Page.fresh (Some children))) = Normal tt
  /\ Page.message_events (snd (Page.index_ts (Page.fresh (Some children))))
       messages
     = {| Page.pre :=
            Some
              (rev (map (fun m => Page.TextNode (m ++ Page.newline)) messages)
               ++ children)%list;
          Page.workers := 1;
          Page.listening := true |}
  /\ Page.textContent
       (rev (map (fun m => Page.TextNode (m ++ Page.newline)) messages)
        ++ children)%list
     = String.concat "" (rev (map (fun m => m ++ Page.newline) messages))
       ++ Page.textContent children.
Proof.
  split; [reflexivity|]. split.
  - cbn [Page.index_ts Page.fresh Page.pre Page.workers Page.listening snd].
    apply message_events_listening.
  - unfold Page.textContent.
    rewrite map_app, concat_app, map_rev, map_map. reflexivity.
Qed.

(** X15: on a page without the element [#pre] the script stops with the
    error ["Not Implemented"], after it has spawned the worker and before it
    listens to it: the worker runs, and whatever it posts changes nothing on
    the page. *)
Theorem page_without_pre (messages : list string) :
  fst (Page.index_ts (Page.fresh None)) = Throw "Not Implemented"
  /\ Page.message_events (snd (Page.index_ts (Page.fresh None))) messages
     = {| Page.pre := None; Page.workers := 1; Page.listening := false |}.
Proof.
  split; [reflexivity|].
  apply message_events_deaf. left. reflexivity.
Qed.

(** X16: worker and page together.  When the page has an empty [#pre] and
    the worker has run [k] verified passes from the start (up to [2^53]),
    the page shows [k / 100] lines, one per message and each a status line
    followed by a line feed, with the counts in descending order: the line
    for count [100 (k / 100)] on top, the line for count [100] at the
    bottom. *)
Theorem page_after_verified_run
  (host : Host) (privateKey publicKey : bytes) (k : nat)
  (st : Averages) (w' : World) :
  Z.of_nat k <= 2 ^ 53 ->
  while_looping host k privateKey publicKey initial_averages initial_world
  = (Normal (StillLooping st), w') ->
  exists shown : list Averages,
    Page.pre
      (Page.message_events (snd (Page.index_ts (Page.fresh (Some []))))
         (posted w'))
    = Some
        (map (fun st' => Page.TextNode (status_line st' ++ Page.newline)) shown)
    /\ map totalSamples shown
       = map (fun i => 100 * Z.of_nat (k / 100 - i)) (seq 0 (k / 100)).
Proof.
  intros Hk Hrun.
  destruct (verified_run host privateKey publicKey k _ _ _ Hk Hrun)
    as (_ & _ & _ & _ & sts & Hp & Hcounts).
  cbn [posted initial_world app] in Hp.
  exists (rev sts). split.
  - cbn [Page.index_ts Page.fresh Page.pre Page.workers Page.listening snd].
    rewrite message_events_listening. cbn [Page.pre].
    rewrite Hp, app_nil_r, map_map, map_rev. reflexivity.
  - rewrite map_rev, Hcounts, rev_map_seq.
    apply map_ext_in. intros i Hi. apply in_seq in Hi.
    f_equal. lia.
Qed.

Lemma page_after_verified_run_witness :
  exists shown : list Averages,
    Page.pre
      (Page.message_events (snd (Page.index_ts (Page.fresh (Some []))))
         (posted
            (snd (while_looping (Hosts.steady 5 true) 250 [] []
                    initial_averages initial_world))))
    = Some
        (map (fun st' => Page.TextNode (status_line st' ++ Page.newline)) shown)
    /\ map totalSamples shown
       = map (fun i => 100 * Z.of_nat (250 / 100 - i)) (seq 0 (250 / 100)).
Proof.
  apply (page_after_verified_run (Hosts.steady 5 true) [] [] 250
           (averages_of
              (while_looping (Hosts.steady 5 true) 250 [] []
                 initial_averages initial_world))).
  - vm_compute. discriminate.
  - vm_compute. reflexivity.
Defined.

(** X17: a string without digits comes back from [numberWithCommas] as it
    is; so do ["NaN"] and ["Infinity"], which [toFixed] prints for numbers
    that are not finite. *)
Theorem numberWithCommas_without_digits (x : string) :
  no_digits x = true -> numberWithCommas x = x.
Proof.
  intros Hx. unfold numberWithCommas, Regex.replace_all.
  now apply replace_from_no_digits.
Qed.

Lemma numberWithCommas_without_digits_witness :
  numberWithCommas "-Infinity" = "-Infinity".
Proof.
  apply (numberWithCommas_without_digits "-Infinity"). reflexivity.
Defined.

(** X18: [totalSamples] is a number, and a number stops counting at [2^53]:
    there [+= 1] leaves it as it is.  From then on the counter never moves
    again and, [2^53] not being a multiple of 100, the worker never posts
    another line, however long it runs and however the run ends. *)
Theorem counter_stops_at_2_53
  (host : Host) (privateKey publicKey : bytes) (k : nat)
  (st : Averages) (w : World) (r : Completion LoopResult) (w' : World) :
  totalSamples st = 2 ^ 53 ->
  while_looping host k privateKey publicKey st w = (r, w') ->
  posted w' = posted w
  /\ (counter_of r = Some (2 ^ 53) \/ counter_of r = None).
Proof. apply loop_at_limit. Qed.

Lemma counter_stops_at_2_53_witness :
  posted
    (snd (while_looping (Hosts.steady 5 true) 250 [] []
            (averages_at (2 ^ 53)) initial_world))
  = posted initial_world
  /\ (counter_of
        (fst (while_looping (Hosts.steady 5 true) 250 [] []
                (averages_at (2 ^ 53)) initial_world))
      = Some (2 ^ 53)
      \/ counter_of
           (fst (while_looping (Hosts.steady 5 true) 250 [] []
                   (averages_at (2 ^ 53)) initial_world))
         = None).
Proof.
  apply (counter_stops_at_2_53 (Hosts.steady 5 true) [] [] 250
           (averages_at (2 ^ 53)) initial_world).
  - reflexivity.
  - vm_compute. reflexivity.
Defined.

(** X19: the standalone process runs in the global scope of Node, which has
    no [postMessage].  There nothing is ever posted, however the run goes;
    and when the setup succeeds and the first 99 passes and the 100th all
    verify, the 100th, the first with a line to post, ends the process: the
    four stages of that pass have run, the averages of the pass are lost,
    the console gets the one line ["Fatal TypeError: self.postMessage is not a
    function"], and the exit code is [1], however many passes the loop would
    be given. *)
Theorem standalone_stops_at_first_post
  (host : Host) (args : list string) (passes : nat)
  (privateKey publicKey : bytes) (st : Averages) (w0 w : World) :
  global_postMessage host = false ->
  ed25519_randomPrivateKey host = Normal privateKey ->
  ed25519_getPublicKey host privateKey = Normal publicKey ->
  while_looping host 99 privateKey publicKey initial_averages w0
  = (Normal (StillLooping st), w) ->
  verify_outcome host privateKey publicKey w = Some true ->
  (100 <= passes)%nat ->
  bootstrap host true passes args w0
  = (Some 1,
     {| clock_reads := 8 * 100 + clock_reads w0;
        random_draws := 100 + random_draws w0;
        posted := posted w0;
        console_errors :=
          console_errors w0
          ++ ["Fatal TypeError: self.postMessage is not a function"] |})
  /\ forall (k : nat) (st1 : Averages) (w1 : World)
       (r : Completion LoopResult) (w' : World),
       while_looping host k privateKey publicKey st1 w1 = (r, w') ->
       posted w' = posted w1.
Proof.
  intros Hscope Hsk Hpk Hrun Hv Hpasses. split.
  - destruct (verified_run host privateKey publicKey 99 w0 st w
                ltac:(vm_compute; discriminate) Hrun)
      as (Ht & Hc & Hd & He & _).
    pose proof (loop_without_postMessage host privateKey publicKey 99 Hscope
                  _ _ _ _ Hrun) as Hp.
    assert (Hdue : post_fails host (record_pass host st (clock_reads w))
                   = true).
    { unfold post_fails. cbn [record_pass record_samples totalSamples].
      rewrite Ht, Hscope. reflexivity. }
    assert (Hmain : main host passes args w0
                    = (Throw postMessage_TypeError, after_pass w [] [])).
    { rewrite (main_after_setup host passes args w0 _ _ Hsk Hpk).
      rewrite (loop_from host privateKey publicKey 99 passes _ _ _ _
                 ltac:(lia) Hrun).
      now rewrite (loop_unposted _ _ _ _ st w Hv Hdue). }
    unfold bootstrap. rewrite Hmain.
    cbn [snd console_error after_pass clock_reads random_draws posted
           console_errors].
    rewrite Hc, Hd, He, Hp, !app_nil_r. reflexivity.
  - intros k st1 w1 r w'.
    now apply (loop_without_postMessage host privateKey publicKey k Hscope).
Qed.

Lemma standalone_stops_at_first_post_witness :
  bootstrap (Hosts.node_main (Hosts.steady 5 true)) true 1000 [] initial_world
  = (Some 1,
     {| clock_reads := 8 * 100 + clock_reads initial_world;
        random_draws := 100 + random_draws initial_world;
        posted := posted initial_world;
        console_errors :=
          console_errors initial_world
          ++ ["Fatal TypeError: self.postMessage is not a function"] |})
  /\ forall (k : nat) (st1 : Averages) (w1 : World)
       (r : Completion LoopResult) (w' : World),
       while_looping (Hosts.node_main (Hosts.steady 5 true)) k
         (repeat Byte.x01 32) (repeat Byte.x01 32) st1 w1 = (r, w') ->
       posted w' = posted w1.
Proof.
  apply (standalone_stops_at_first_post
           (Hosts.node_main (Hosts.steady 5 true)) [] 1000
           (repeat Byte.x01 32) (repeat Byte.x01 32)
           (averages_of
              (while_looping (Hosts.node_main (Hosts.steady 5 true)) 99
                 (repeat Byte.x01 32) (repeat Byte.x01 32)
                 initial_averages initial_world))
           initial_world
           (snd (while_looping (Hosts.node_main (Hosts.steady 5 true)) 99
                   (repeat Byte.x01 32) (repeat Byte.x01 32)
                   initial_averages initial_world))).
  - reflexivity.
  - reflexivity.
  - reflexivity.
  - vm_compute. reflexivity.
  - vm_compute. reflexivity.
  - cbn. lia.
Defined.
